(** * NoteService (src/modules/note/note.service.ts)

    A shallow embedding of the five note operations and of the part of the
    document store they talk to, followed by the properties of the
    service: ownership scoping, the error policy at the method boundary,
    pagination, the cascading delete and the channel resolution of
    [createNote]. *)

From stdpp Require Import base option list strings gmap fin_maps.
From Stdlib Require Import ZArith.

Open Scope string_scope.
Open Scope list_scope.

(** ** HTTP statuses and exceptions *)

(** The members of nestjs' [HttpStatus] that the service uses. *)
Inductive HttpStatus :=
  | OK | CREATED | NO_CONTENT | NOT_FOUND | INTERNAL_SERVER_ERROR.

Definition status_code (s : HttpStatus) : Z :=
  match s with
  | OK => 200
  | CREATED => 201
  | NO_CONTENT => 204
  | NOT_FOUND => 404
  | INTERNAL_SERVER_ERROR => 500
  end%Z.

Global Instance HttpStatus_eq_dec : EqDecision HttpStatus.
Proof. solve_decision. Defined.

(** What can be thrown: a plain [Error] (the store driver rejects a call)
    or nestjs' [HttpException], which carries a status next to the message. *)
Inductive exn :=
  | JsError (msg : string)
  | HttpException (msg : string) (status : HttpStatus).

(** [error.message] *)
Definition message (e : exn) : string :=
  match e with
  | JsError m => m
  | HttpException m _ => m
  end.

(** ** Documents *)

(** Stored field values.  ObjectIds are represented by their hex string:
    mongoose casts between the two at every boundary of this service. *)
Inductive scalar :=
  | SNull
  | SBool (b : bool)
  | SNum (z : Z)
  | SStr (s : string)
  | SDate (z : Z)
  | SList (l : list string).

Global Instance scalar_eq_dec : EqDecision scalar.
Proof. solve_decision. Defined.

(** A stored document: field name to value; an absent key is [undefined]. *)
Abbreviation doc := (gmap string scalar).

(** What a property of a lean result can hold: a stored value, an embedded
    (populated) document, or [undefined]. *)
Inductive value :=
  | VUndefined
  | VS (s : scalar)
  | VObj (o : doc).

Global Instance value_eq_dec : EqDecision value.
Proof. solve_decision. Defined.

(** A plain JS object, as [lean()] returns and as object literals build. *)
Abbreviation obj := (gmap string value).

(** [o.k] on a plain object. *)
Definition prop (o : obj) (k : string) : value := default VUndefined (o !! k).

(** [d.id] on a hydrated mongoose document: the virtual getter that
    renders [_id] as a string. *)
Definition doc_id (d : doc) : option string :=
  match d !! "_id" with
  | Some (SStr s) => Some s
  | _ => None
  end.

(** ** The query engine, as far as the service uses it *)

Module Mongo.

(** An equality filter, as written in the source: [{ k1: v1, k2: v2 }]. *)
Definition Filter := list (string * scalar).

(** [{ k: v }] against the field [k] of a document: equality; [null] also
    matches a missing field; a string also matches an array holding it. *)
Definition field_matches (v : scalar) (f : option scalar) : bool :=
  match v, f with
  | SNull, None => true
  | SNull, Some w => bool_decide (w = SNull)
  | SStr s, Some (SList l) => bool_decide (s ∈ l)
  | _, Some w => bool_decide (w = v)
  | _, None => false
  end.

Definition matches (flt : Filter) (d : doc) : bool :=
  forallb (λ kv, field_matches kv.2 (d !! kv.1)) flt.

(** [find(flt)]: the matching documents, in natural (insertion) order. *)
Definition find (flt : Filter) (c : list doc) : list doc :=
  List.filter (matches flt) c.

(** [findOne(flt)]: the first match, or [null]. *)
Definition findOne (flt : Filter) (c : list doc) : option doc :=
  head (find flt c).

(** [countDocuments(flt)] *)
Definition countDocuments (flt : Filter) (c : list doc) : nat :=
  length (find flt c).

(** [deleteOne(flt)]: removes the first match; the collection after the
    call and [deletedCount]. *)
Fixpoint deleteOne (flt : Filter) (c : list doc) : list doc * nat :=
  match c with
  | [] => ([], 0)
  | d :: c' =>
      if matches flt d then (c', 1)
      else let r := deleteOne flt c' in (d :: r.1, r.2)
  end.

(** [updateOne(flt, { $set: upd })]: merges [upd] into the first match;
    the collection after the call, [matchedCount] and [modifiedCount]
    (a document that already holds the values counts as matched only). *)
Fixpoint updateOne (flt : Filter) (upd : doc) (c : list doc)
  : list doc * (nat * nat) :=
  match c with
  | [] => ([], (0, 0))
  | d :: c' =>
      if matches flt d
      then ((upd ∪ d) :: c', (1, if decide (upd ∪ d = d) then 0 else 1))
      else let r := updateOne flt upd c' in (d :: r.1, r.2)
  end.

(** [select('a b c')]: an inclusive projection.  [_id] comes along unless
    the string excludes it with [-_id]. *)
Definition select (spec : string) (d : doc) : doc :=
  let toks := String.words spec in
  filter (λ kv, kv.1 ∈ toks ∨ (kv.1 = "_id" ∧ "-_id" ∉ toks)) d.

(** [skip(n)] *)
Definition skip (n : nat) (c : list doc) : list doc := drop n c.

(** [limit(n)]; a limit of 0 is no limit. *)
Definition limit (n : nat) (c : list doc) : list doc :=
  if decide (n = 0) then c else take n c.

(** [populate({ path, select })] on one lean document: the reference
    under [path] is replaced by the selected fields of the document of
    [target] that has this [_id], or by [null] when there is none. *)
Definition populate (path spec : string) (target : list doc) (d : doc)
  : obj :=
  let o : obj := VS <$> d in
  match d !! path with
  | None | Some SNull => o
  | Some ref =>
      <[path := match findOne [("_id", ref)] target with
                | Some t => VObj (select spec t)
                | None => VS SNull
                end]> o
  end.

End Mongo.

(** ** The store behind the two injected models *)

Inductive Collection := NoteCollection | ChannelCollection.

Inductive QueryKind :=
  | QFindOne | QFind | QCountDocuments | QCreate | QUpdateOne | QDeleteOne.

(** One call on a model, as the service issues it (recorded before
    mongoose casts the filter). *)
Record Query := mkQuery {
  q_collection : Collection;
  q_kind : QueryKind;
  q_filter : Mongo.Filter;
}.

Global Instance Collection_eq_dec : EqDecision Collection.
Proof. solve_decision. Defined.
Global Instance QueryKind_eq_dec : EqDecision QueryKind.
Proof. solve_decision. Defined.
Global Instance Query_eq_dec : EqDecision Query.
Proof. solve_decision. Defined.

(** What the two models read and write.
    - [notes], [channels]: the two collections, in insertion order;
    - [strictQuery]: the mongoose option of that name (its default differs
      between major versions, so it is left open);
    - [noteDefaults]: the fields the Note schema adds to a created document
      beyond the ones passed in (defaults, version key, timestamps);
    - [oidCounter]: the source of fresh ObjectIds. *)
Record Db := mkDb {
  notes : list doc;
  channels : list doc;
  strictQuery : bool;
  noteDefaults : doc;
  oidCounter : N;
}.

Definition set_notes (c : list doc) (d : Db) : Db :=
  mkDb c (channels d) (strictQuery d) (noteDefaults d) (oidCounter d).
Definition set_channels (c : list doc) (d : Db) : Db :=
  mkDb (notes d) c (strictQuery d) (noteDefaults d) (oidCounter d).
Definition set_oidCounter (n : N) (d : Db) : Db :=
  mkDb (notes d) (channels d) (strictQuery d) (noteDefaults d) n.

(** The state the service runs against: the database, and around it
    - [faults]: for each coming store call in turn, [Some msg] when the
      driver rejects that call with [Error(msg)];
    - [queries]: the calls issued so far. *)
Record Store := mkStore {
  db : Db;
  faults : list (option string);
  queries : list Query;
}.

(** Modelled from the spec: the paths of the Note and Channel schemas
    ([@schema] is not part of the sources), from the data model:
    identifier, content, tags, channel, user, status; and identifier, name,
    type, isDefault, user, deletedAt. *)
Definition notePaths : list string :=
  ["_id"; "content"; "tags"; "channel"; "user"; "status"].
Definition channelPaths : list string :=
  ["_id"; "name"; "type"; "isDefault"; "user"; "deletedAt"].

(** Under [strictQuery] mongoose drops the filter keys that are no path of
    the schema; otherwise the filter reaches the database as written. *)
Definition castFilter (strict : bool) (paths : list string)
    (flt : Mongo.Filter) : Mongo.Filter :=
  if strict then List.filter (λ kv, bool_decide (kv.1 ∈ paths)) flt
  else flt.

(** ** Promises: state, exceptions, and [await] *)

Definition M (A : Type) : Type := Store → (exn + A) * Store.

Global Instance M_ret : MRet M := λ A a st, (inr a, st).
Global Instance M_bind : MBind M := λ A B f m st,
  match m st with
  | (inr a, st') => f a st'
  | (inl e, st') => (inl e, st')
  end.

Definition throw {A} (e : exn) : M A := λ st, (inl e, st).

(** [try { body } catch (error) { handler }] *)
Definition try_catch {A} (body : M A) (handler : exn → M A) : M A := λ st,
  match body st with
  | (inr a, st') => (inr a, st')
  | (inl e, st') => handler e st'
  end.

(** The fault that awaits the next store call, if any. *)
Definition next_fault (st : Store) : option string :=
  match faults st with
  | Some msg :: _ => Some msg
  | _ => None
  end.

(** The store once the call [q] has been issued. *)
Definition issued (q : Query) (st : Store) : Store :=
  mkStore (db st) (tail (faults st)) (queries st ++ [q]).

(** One awaited call on a model: the call is recorded, then either the
    driver rejects it or it runs against the database. *)
Definition await {A} (q : Query) (run : Db → A * Db) : M A := λ st,
  match next_fault st with
  | Some msg => (inl (JsError msg), issued q st)
  | None =>
      let r := run (db st) in
      (inr r.1, mkStore r.2 (faults (issued q st)) (queries (issued q st)))
  end.

(** [Promise.all([p, q])]: both calls are issued, whatever becomes of the
    other one; the result is the pair of their values, or a rejection
    (requests are taken to settle in the order they were issued). *)
Definition Promise_all {A B} (p : M A) (q : M B) : M (A * B) := λ st,
  let rp := p st in
  let rq := q rp.2 in
  match rp.1, rq.1 with
  | inr a, inr b => (inr (a, b), rq.2)
  | inl e, _ => (inl e, rq.2)
  | _, inl e => (inl e, rq.2)
  end.

(** ** The calls on [noteModel] and [channelModel] *)

(** A fresh ObjectId, rendered as [toHexString] does: 24 hex digits (the
    driver's ids are taken in the order of a counter). *)
Definition hexDigit (n : N) : Ascii.ascii :=
  nth (N.to_nat n) (String.list_ascii_of_string "0123456789abcdef")
    Ascii.zero.

Fixpoint hex (digits : nat) (n : N) : string :=
  match digits with
  | 0 => ""
  | S k => hex k (n / 16) +:+ String (hexDigit (n mod 16)) ""
  end.

Definition newObjectId (n : N) : string := hex 24 n.

Record UpdateResult := mkUpdateResult {
  matchedCount : nat;
  modifiedCount : nat;
}.

Record DeleteResult := mkDeleteResult { deletedCount : nat }.

Module channelModel.

(** [channelModel.findOne(flt)] *)
Definition findOne (flt : Mongo.Filter) : M (option doc) :=
  await (mkQuery ChannelCollection QFindOne flt) (λ d,
    (Mongo.findOne (castFilter (strictQuery d) channelPaths flt)
       (channels d), d)).

(** [channelModel.deleteOne(flt)] *)
Definition deleteOne (flt : Mongo.Filter) : M DeleteResult :=
  await (mkQuery ChannelCollection QDeleteOne flt) (λ d,
    let r := Mongo.deleteOne
               (castFilter (strictQuery d) channelPaths flt)
               (channels d) in
    (mkDeleteResult r.2, set_channels r.1 d)).

End channelModel.

Module noteModel.

(** The document [create] stores for [fields]: a fresh [_id], the fields,
    and the schema's own fields where [fields] has none. *)
Definition document (d : Db) (fields : doc) : doc :=
  <["_id" := SStr (newObjectId (oidCounter d))]> (fields ∪ noteDefaults d).

(** [noteModel.create(fields)]: the document is appended to the
    collection and returned. *)
Definition create (fields : doc) : M doc :=
  await (mkQuery NoteCollection QCreate []) (λ d,
    let n := document d fields in
    (n, set_oidCounter (N.succ (oidCounter d))
          (set_notes (notes d ++ [n]) d))).

(** [noteModel.findOne(flt)], hydrated. *)
Definition findOne (flt : Mongo.Filter) : M (option doc) :=
  await (mkQuery NoteCollection QFindOne flt) (λ d,
    (Mongo.findOne (castFilter (strictQuery d) notePaths flt)
       (notes d), d)).

(** [noteModel.findOne(flt).select(sel).populate({ path, select }).lean()] *)
Definition findOne_select_populate_lean (flt : Mongo.Filter)
    (sel path psel : string) : M (option obj) :=
  await (mkQuery NoteCollection QFindOne flt) (λ d,
    (Mongo.populate path psel (channels d) ∘ Mongo.select sel
       <$> Mongo.findOne (castFilter (strictQuery d) notePaths flt)
             (notes d), d)).

(** [noteModel.find(flt).select(sel).skip(s).limit(l).lean()] *)
Definition find_select_skip_limit_lean (flt : Mongo.Filter)
    (sel : string) (s l : nat) : M (list doc) :=
  await (mkQuery NoteCollection QFind flt) (λ d,
    (Mongo.select sel
       <$> Mongo.limit l (Mongo.skip s
             (Mongo.find (castFilter (strictQuery d) notePaths flt)
                (notes d))), d)).

(** [noteModel.countDocuments(flt)] *)
Definition countDocuments (flt : Mongo.Filter) : M nat :=
  await (mkQuery NoteCollection QCountDocuments flt) (λ d,
    (Mongo.countDocuments (castFilter (strictQuery d) notePaths flt)
       (notes d), d)).

(** [noteModel.updateOne(flt, { $set: payload })]; the schema is strict,
    so only its own paths are set. *)
Definition updateOne (flt : Mongo.Filter) (payload : doc)
  : M UpdateResult :=
  await (mkQuery NoteCollection QUpdateOne flt) (λ d,
    let r := Mongo.updateOne
               (castFilter (strictQuery d) notePaths flt)
               (filter (λ kv, kv.1 ∈ notePaths) payload) (notes d) in
    (mkUpdateResult r.2.1 r.2.2, set_notes r.1 d)).

(** [noteModel.deleteOne(flt)] *)
Definition deleteOne (flt : Mongo.Filter) : M DeleteResult :=
  await (mkQuery NoteCollection QDeleteOne flt) (λ d,
    let r := Mongo.deleteOne
               (castFilter (strictQuery d) notePaths flt) (notes d) in
    (mkDeleteResult r.2, set_notes r.1 d)).

End noteModel.

(** ** DTOs and the response envelope *)

Record ResponseType (T : Type) := mkResponse {
  data : T;
  statusCode : HttpStatus;
}.
Arguments mkResponse {T} _ _.
Arguments data {T} _.
Arguments statusCode {T} _.

Record CreateNoteDto := mkCreateNoteDto {
  channelId : option string;
  content : string;
  tags : list string;
}.

(** [{ id: newNote.id }] *)
Record CreateNoteResponseDto := mkCreated { created_id : option string }.

Record GetNotesQueryDto := mkGetNotesQuery {
  skip : nat;
  limit : nat;
}.

(** Modelled from the spec: [PageMetaDto] and [PageDto] ([@common] is not
    part of the sources).  The metadata is built from the total record
    count and the page options; the page pairs the items with it. *)
Record PageMetaDto := mkPageMeta {
  totalRecord : nat;
  pageOptionsDto : GetNotesQueryDto;
}.

Record PageDto := mkPage {
  page_data : list doc;
  page_meta : PageMetaDto;
}.

(** [{ id, matchedCount, modifiedCount }] *)
Record UpdateNoteResponseDto := mkUpdated {
  updated_id : string;
  updated_matchedCount : nat;
  updated_modifiedCount : nat;
}.

(** [{ id, deletedCount }] *)
Record DeleteNoteResponseDto := mkDeleted {
  deleted_id : string;
  deleted_deletedCount : nat;
}.

(** ** NoteService *)

(** [!s] for an optional string: [undefined] and the empty string. *)
Definition falsy (s : option string) : bool :=
  match s with
  | None | Some "" => true
  | Some _ => false
  end.

(** [{ content, tags, channel: channelId, user: userId }] *)
Definition newNoteFields (content : string) (tags : list string)
    (channelId : option string) (userId : string) : doc :=
  let o : doc :=
    {[ "content" := SStr content; "tags" := SList tags;
       "user" := SStr userId ]} in
  match channelId with
  | Some c => <["channel" := SStr c]> o
  | None => o
  end.

(** The filter [{ isDefault: true, user: userId, deletedAt: null }]. *)
Definition defaultChannelFilter (userId : string) : Mongo.Filter :=
  [("isDefault", SBool true); ("user", SStr userId); ("deletedAt", SNull)].

(** The filter [{ _id: id, user: userId }]. *)
Definition ownedNoteFilter (id userId : string) : Mongo.Filter :=
  [("_id", SStr id); ("user", SStr userId)].

(** [catch (error) { throw new HttpException(error.message,
    HttpStatus.INTERNAL_SERVER_ERROR) }], the handler of all five methods. *)
Definition rethrow {A} (error : exn) : M A :=
  throw (HttpException (message error) INTERNAL_SERVER_ERROR).

(** The [try] block of [createNote]. *)
Definition createNote_try (payload : CreateNoteDto) (userId : string)
  : M (ResponseType CreateNoteResponseDto) :=
  channelId ←
    (if falsy (channelId payload) then
       channel ← channelModel.findOne (defaultChannelFilter userId);
       match channel with
       | None =>
           throw (HttpException
                    "You need to connect to at least one channel" NOT_FOUND)
       | Some channel => mret (doc_id channel)
       end
     else mret (channelId payload));
  newNote ← noteModel.create
              (newNoteFields (content payload) (tags payload)
                 channelId userId);
  mret (mkResponse (mkCreated (doc_id newNote)) CREATED).

Definition createNote (payload : CreateNoteDto) (userId : string)
  : M (ResponseType CreateNoteResponseDto) :=
  try_catch (createNote_try payload userId) rethrow.

(** The [try] block of [getNote].  The result of the query is lean: a
    plain object with the stored fields the projection kept and without
    the virtual [id] of hydrated documents, so [note.id] reads a stored
    field of that name.  The projection of the note drops [_id] by its
    [-_id]; the one of the populated channel does not. *)
Definition getNote_try (id userId : string) : M (ResponseType obj) :=
  note ← noteModel.findOne_select_populate_lean
           (ownedNoteFilter id userId)
           "-_id id content tags channel status" "channel" "name type";
  match note with
  | None => throw (HttpException "Note Not Found" NOT_FOUND)
  | Some note =>
      mret (mkResponse
              ({[ "id" := prop note "id";
                  "content" := prop note "content";
                  "tags" := prop note "tags";
                  "channel" := prop note "channel" ]} : obj)
              OK)
  end.

Definition getNote (id userId : string) : M (ResponseType obj) :=
  try_catch (getNote_try id userId) rethrow.

(** The [try] block of [getNotes]. *)
Definition getNotes_try (query : GetNotesQueryDto) (userId : string)
  : M (ResponseType PageDto) :=
  notes ← noteModel.find_select_skip_limit_lean
            [("user", SStr userId)] "-_id id content tags status"
            (skip query) (limit query);
  totalRecord ← noteModel.countDocuments [("userId", SStr userId)];
  let pageMeta := mkPageMeta totalRecord query in
  let pageData := mkPage notes pageMeta in
  mret (mkResponse pageData OK).

Definition getNotes (query : GetNotesQueryDto) (userId : string)
  : M (ResponseType PageDto) :=
  try_catch (getNotes_try query userId) rethrow.

(** The [try] block of [updateNote]. *)
Definition updateNote_try (id userId : string) (payload : doc)
  : M (ResponseType UpdateNoteResponseDto) :=
  result ← noteModel.updateOne (ownedNoteFilter id userId) payload;
  mret (mkResponse
          (mkUpdated id (matchedCount result) (modifiedCount result)) OK).

Definition updateNote (id userId : string) (payload : doc)
  : M (ResponseType UpdateNoteResponseDto) :=
  try_catch (updateNote_try id userId payload) rethrow.

(** The [try] block of [deleteNote].  A reference that is [undefined]
    reaches the database as [null]. *)
Definition deleteNote_try (id userId : string)
  : M (ResponseType DeleteNoteResponseDto) :=
  note ← noteModel.findOne (ownedNoteFilter id userId);
  match note with
  | None => throw (HttpException "Note Not Found" NOT_FOUND)
  | Some note =>
      results ← Promise_all
                  (noteModel.deleteOne (ownedNoteFilter id userId))
                  (channelModel.deleteOne
                     [("_id", default SNull (note !! "channel"))]);
      let result := results.1 in
      mret (mkResponse (mkDeleted id (deletedCount result)) NO_CONTENT)
  end.

Definition deleteNote (id userId : string)
  : M (ResponseType DeleteNoteResponseDto) :=
  try_catch (deleteNote_try id userId) rethrow.

(** ** A small store to run the service on *)

(** Two users: [u1] with a default channel and a note on it, [u2] with no
    channel of their own and a note that refers to the channel of [u1]. *)

Module Sample.

Definition u1 : string := "64a1f0000000000000000001".
Definition u2 : string := "64a1f0000000000000000002".
Definition c1 : string := "64a1f00000000000000000c1".
Definition n1 : string := "64a1f00000000000000000a1".
Definition n2 : string := "64a1f00000000000000000a2".

Definition chan1 : doc :=
  {[ "_id" := SStr c1; "name" := SStr "general"; "type" := SStr "slack";
     "isDefault" := SBool true; "user" := SStr u1; "deletedAt" := SNull ]}.

Definition note1 : doc :=
  {[ "_id" := SStr n1; "content" := SStr "buy milk";
     "tags" := SList ["home"]; "channel" := SStr c1;
     "user" := SStr u1; "status" := SStr "pending" ]}.

Definition note2 : doc :=
  {[ "_id" := SStr n2; "content" := SStr "pay rent";
     "tags" := SList []; "channel" := SStr c1;
     "user" := SStr u2; "status" := SStr "pending" ]}.

Definition store (strict : bool) : Store :=
  mkStore (mkDb [note1; note2] [chan1] strict
             {[ "status" := SStr "pending" ]} 7) [] [].

(** An id no channel of the store has. *)
Definition gone : string := "64a1f00000000000000000ff".

End Sample.


(** ** Vocabulary of the statements *)

(** The rejections waiting in a fault plan. *)
Definition rejections (f : list (option string)) : list string := omap id f.

(** No coming store call is rejected by the driver. *)
Definition healthy (st : Store) : Prop := rejections (faults st) = [].

(** The outcome of a call and the store it leaves. *)
Definition outcome {A} (r : (exn + A) * Store) : exn + A := r.1.
Definition after {A} (r : (exn + A) * Store) : Store := r.2.

(** The calls a run of the service added to the log of [st]. *)
Definition issued_since (st st' : Store) : list Query :=
  drop (length (queries st)) (queries st').

(** A property of a lean result, read off the stored document. *)
Definition field (d : doc) (k : string) : value :=
  from_option VS VUndefined (d !! k).

(** The note is one of [userId]'s: its [user] field matches [userId] the
    way the filter [{ user: userId }] matches it. *)
Definition owned_by (userId : string) (d : doc) : bool :=
  Mongo.field_matches (SStr userId) (d !! "user").

(** A query carries the ownership condition [user = userId]. *)
Definition owner_scoped (userId : string) (q : Query) : Prop :=
  ("user", SStr userId) ∈ q_filter q.

Global Instance owner_scoped_dec userId q : Decision (owner_scoped userId q).
Proof. unfold owner_scoped. apply _. Defined.

(** The fields of a channel that [select: 'name type'] keeps. *)
Definition channel_view (t : doc) : doc :=
  filter (λ kv, kv.1 ∈ ["_id"; "name"; "type"]) t.

(** What [getNote] returns under [channel] for a stored note: nothing for
    a note without the field, [null] for a [null] reference or one that
    no channel answers to, and else the view of the first channel with
    that [_id]. *)
Definition resolved_channel (chs : list doc) (note : doc) : value :=
  match note !! "channel" with
  | None => VUndefined
  | Some SNull => VS SNull
  | Some ref =>
      match Mongo.findOne [("_id", ref)] chs with
      | Some t => VObj (channel_view t)
      | None => VS SNull
      end
  end.

(** The data of [getNote] in the words of the specification: the fields
    id, content, tags, channel and status of the note, the channel as an
    embedded object with name and type only. *)
Definition getNote_data_as_specified (note channel : doc) : obj :=
  {[ "id" := from_option (VS ∘ SStr) VUndefined (doc_id note);
     "content" := field note "content";
     "tags" := field note "tags";
     "status" := field note "status";
     "channel" := VObj (filter (λ kv, kv.1 ∈ ["name"; "type"]) channel) ]}.

(** The channel is an active default channel of [userId]: its [isDefault]
    is [true], its [user] is [userId] (for an array-valued field, as the
    database compares: one of its elements is), and its [deletedAt] is
    [null] or absent. *)
Definition active_default_of (userId : string) (ch : doc) : bool :=
  bool_decide (ch !! "isDefault" = Some (SBool true))
  && match ch !! "user" with
     | Some (SStr u) => bool_decide (u = userId)
     | Some (SList l) => bool_decide (userId ∈ l)
     | _ => false
     end
  && match ch !! "deletedAt" with
     | None | Some SNull => true
     | Some _ => false
     end.

(** The five methods of the service with their arguments. *)
Inductive Method :=
  | CreateNote (payload : CreateNoteDto) (userId : string)
  | GetNote (id userId : string)
  | GetNotes (query : GetNotesQueryDto) (userId : string)
  | UpdateNote (id userId : string) (payload : doc)
  | DeleteNote (id userId : string).

(** The error of a run, if it ended in one, with the store it left. *)
Definition failure {A} (r : (exn + A) * Store) : option (exn * Store) :=
  match r.1 with
  | inl e => Some (e, r.2)
  | inr _ => None
  end.

(** The error raised inside the [try] block of a method. *)
Definition raised_in_try (m : Method) (st : Store) : option (exn * Store) :=
  match m with
  | CreateNote payload userId => failure (createNote_try payload userId st)
  | GetNote id userId => failure (getNote_try id userId st)
  | GetNotes query userId => failure (getNotes_try query userId st)
  | UpdateNote id userId payload =>
      failure (updateNote_try id userId payload st)
  | DeleteNote id userId => failure (deleteNote_try id userId st)
  end.

(** The error the method throws to its caller. *)
Definition thrown (m : Method) (st : Store) : option (exn * Store) :=
  match m with
  | CreateNote payload userId => failure (createNote payload userId st)
  | GetNote id userId => failure (getNote id userId st)
  | GetNotes query userId => failure (getNotes query userId st)
  | UpdateNote id userId payload => failure (updateNote id userId payload st)
  | DeleteNote id userId => failure (deleteNote id userId st)
  end.

(** [getRedisKey(params)]: the template literal [`note:${params}`]. *)
Definition getRedisKey (params : string) : string := "note:" +:+ params.

(** The store with another Note collection in place of its own. *)
Definition with_notes (c : list doc) (st : Store) : Store :=
  mkStore (set_notes c (db st)) (faults st) (queries st).

(** The store with another fault plan. *)
Definition with_faults (f : list (option string)) (st : Store) : Store :=
  mkStore (db st) f (queries st).

(** The items of the page a run of [getNotes] returned (none when it
    threw). *)
Definition items (r : (exn + ResponseType PageDto) * Store) : list doc :=
  match r.1 with
  | inr resp => page_data (data resp)
  | inl _ => []
  end.

(** Further documents for the sample store. *)
Module Fixtures.

(** A default channel of [Sample.u1] that was soft-deleted. *)
Definition retired : doc :=
  {[ "_id" := SStr "64a1f00000000000000000c0"; "name" := SStr "old";
     "type" := SStr "email"; "isDefault" := SBool true;
     "user" := SStr Sample.u1; "deletedAt" := SDate 1700000000 ]}.

(** A second active default channel of [Sample.u1]. *)
Definition second : doc :=
  {[ "_id" := SStr "64a1f00000000000000000c2"; "name" := SStr "backup";
     "type" := SStr "email"; "isDefault" := SBool true;
     "user" := SStr Sample.u1; "deletedAt" := SNull ]}.

(** A second note of [Sample.u1], on the same channel as the first. *)
Definition n3 : string := "64a1f00000000000000000a3".

Definition note3 : doc :=
  {[ "_id" := SStr n3; "content" := SStr "call mum";
     "tags" := SList ["family"]; "channel" := SStr Sample.c1;
     "user" := SStr Sample.u1; "status" := SStr "pending" ]}.

(** The default channel of [Sample.u2]. *)
Definition foreign : doc :=
  {[ "_id" := SStr "64a1f00000000000000000c3"; "name" := SStr "theirs";
     "type" := SStr "slack"; "isDefault" := SBool true;
     "user" := SStr Sample.u2; "deletedAt" := SNull ]}.

(** A channel of [Sample.u1] that is active and not the default. *)
Definition side : doc :=
  {[ "_id" := SStr "64a1f00000000000000000c4"; "name" := SStr "side";
     "type" := SStr "email"; "isDefault" := SBool false;
     "user" := SStr Sample.u1; "deletedAt" := SNull ]}.

(** The sample database with other collections. *)
Definition store (ns chs : list doc) : Store :=
  mkStore (mkDb ns chs false {[ "status" := SStr "pending" ]} 7) [] [].

End Fixtures.

(** * Properties *)

(** ** The query engine *)

Section mongo.
Context (flt : Mongo.Filter).
Implicit Types (c : list doc) (d : doc).

Lemma findOne_Some c d :
  Mongo.findOne flt c = Some d → d ∈ c ∧ Mongo.matches flt d = true.
Proof.
  unfold Mongo.findOne, Mongo.find. intros H.
  assert (Hin : In d (List.filter (Mongo.matches flt) c)).
  { destruct (List.filter _ c); simplify_eq/=. by left. }
  apply filter_In in Hin as [Hin ?]. by rewrite list_elem_of_In.
Qed.

Lemma findOne_None c :
  Mongo.findOne flt c = None ↔ ∀ d, d ∈ c → Mongo.matches flt d = false.
Proof.
  unfold Mongo.findOne, Mongo.find. induction c as [|x c IH]; simpl.
  - split; [intros _ d Hd; by apply elem_of_nil in Hd | done].
  - destruct (Mongo.matches flt x) eqn:Hx; simpl.
    + split; [done | intros H]. specialize (H x (list_elem_of_here _ _)).
      congruence.
    + rewrite IH. split.
      * intros H d [->|Hd]%elem_of_cons; auto.
      * intros H d Hd. apply H. by right.
Qed.

Lemma findOne_cons c d :
  Mongo.findOne flt (d :: c)
  = if Mongo.matches flt d then Some d else Mongo.findOne flt c.
Proof.
  unfold Mongo.findOne, Mongo.find. simpl. by destruct (Mongo.matches _ _).
Qed.

Lemma find_nil_findOne c :
  Mongo.find flt c = [] ↔ Mongo.findOne flt c = None.
Proof. unfold Mongo.findOne. by destruct (Mongo.find flt c). Qed.

Lemma find_singleton_findOne c d :
  Mongo.find flt c = [d] → Mongo.findOne flt c = Some d.
Proof. unfold Mongo.findOne. by intros ->. Qed.

(** Deleting where nothing matches changes nothing. *)
Lemma deleteOne_None c :
  Mongo.findOne flt c = None → Mongo.deleteOne flt c = (c, 0).
Proof.
  induction c as [|x c IH]; [done|]. rewrite findOne_cons. simpl.
  destruct (Mongo.matches flt x); [done|]. intros H. by rewrite IH.
Qed.

(** Deleting where something matches removes the first match, the
    document [findOne] returns, and nothing else. *)
Lemma deleteOne_Some c d :
  Mongo.findOne flt c = Some d →
  ∃ c1 c2, c = c1 ++ d :: c2 ∧ Mongo.findOne flt c1 = None ∧
           Mongo.deleteOne flt c = (c1 ++ c2, 1).
Proof.
  induction c as [|x c IH]; [done|]. rewrite findOne_cons. simpl.
  destruct (Mongo.matches flt x) eqn:Hx.
  - intros [= ->]. by exists [], c.
  - intros (c1 & c2 & -> & Hc1 & ->)%IH. exists (x :: c1), c2.
    by rewrite findOne_cons, Hx.
Qed.

(** Updating where nothing matches changes nothing. *)
Lemma updateOne_None upd c :
  Mongo.findOne flt c = None → Mongo.updateOne flt upd c = (c, (0, 0)).
Proof.
  induction c as [|x c IH]; [done|]. rewrite findOne_cons. simpl.
  destruct (Mongo.matches flt x); [done|]. intros H. by rewrite IH.
Qed.

(** The documents a filter does not match survive [deleteOne] and
    [updateOne] with that filter, in place and in order. *)
Lemma deleteOne_frame (keep : doc → bool) c :
  (∀ d, keep d = true → Mongo.matches flt d = false) →
  List.filter keep (Mongo.deleteOne flt c).1 = List.filter keep c.
Proof.
  intros Hkeep. induction c as [|x c IH]; [done|]. simpl.
  destruct (Mongo.matches flt x) eqn:Hx; simpl.
  - destruct (keep x) eqn:Hk; [|done]. apply Hkeep in Hk. congruence.
  - by rewrite IH.
Qed.

Lemma updateOne_frame upd c i d :
  c !! i = Some d → Mongo.matches flt d = false →
  (Mongo.updateOne flt upd c).1 !! i = Some d.
Proof.
  revert i. induction c as [|x c IH]; intros i; [done|]. simpl.
  destruct (Mongo.matches flt x) eqn:Hx; simpl.
  - destruct i as [|i]; simpl; [|done]. intros [= ->]. congruence.
  - destruct i as [|i]; simpl; [done|]. apply IH.
Qed.

Lemma updateOne_length upd c :
  length (Mongo.updateOne flt upd c).1 = length c.
Proof.
  induction c as [|x c IH]; [done|]. simpl.
  destruct (Mongo.matches flt x); simpl; by rewrite ?IH.
Qed.

End mongo.

(** ** Casting of the filters the service writes *)

Lemma castFilter_ownedNote strict id userId :
  castFilter strict notePaths (ownedNoteFilter id userId)
  = ownedNoteFilter id userId.
Proof. by destruct strict. Qed.

Lemma castFilter_user strict userId :
  castFilter strict notePaths [("user", SStr userId)]
  = [("user", SStr userId)].
Proof. by destruct strict. Qed.

Lemma castFilter_defaultChannel strict userId :
  castFilter strict channelPaths (defaultChannelFilter userId)
  = defaultChannelFilter userId.
Proof. by destruct strict. Qed.

Lemma castFilter_channel_id strict v :
  castFilter strict channelPaths [("_id", v)] = [("_id", v)].
Proof. by destruct strict. Qed.

(** The key [userId] is no path of the Note schema: a strict query loses
    it, a lax one sends it to the database. *)
Lemma castFilter_userId strict userId :
  castFilter strict notePaths [("userId", SStr userId)]
  = if strict then [] else [("userId", SStr userId)].
Proof. by destruct strict. Qed.

(** ** Running against a healthy store *)

Lemma healthy_next_fault st : healthy st → next_fault st = None.
Proof.
  unfold healthy, rejections, next_fault.
  by destruct (faults st) as [|[m|] l].
Qed.

Lemma rejections_tail f : rejections f = [] → rejections (tail f) = [].
Proof. unfold rejections. by destruct f as [|[m|] l]. Qed.

(** Health survives any number of calls. *)
Ltac stay_healthy :=
  unfold healthy in *; simpl; repeat apply rejections_tail; assumption.

Lemma await_healthy {A} q (run : Db → A * Db) st :
  healthy st →
  await q run st
  = (inr (run (db st)).1,
     mkStore (run (db st)).2 (tail (faults st)) (queries st ++ [q])).
Proof. intros H. unfold await. by rewrite (healthy_next_fault _ H). Qed.

Lemma await_ok {A} q (run : Db → A * Db) st :
  next_fault st = None →
  await q run st
  = (inr (run (db st)).1,
     mkStore (run (db st)).2 (tail (faults st)) (queries st ++ [q])).
Proof. intros H. unfold await. by rewrite H. Qed.

(** A rejected call surfaces as the driver's error; the database is not
    touched. *)
Lemma await_rejected {A} q (run : Db → A * Db) st msg :
  next_fault st = Some msg →
  await q run st = (inl (JsError msg), issued q st).
Proof. intros H. unfold await. by rewrite H. Qed.

Lemma bind_inr {A B} (m : M A) (f : A → M B) st a st' :
  m st = (inr a, st') → (m ≫= f) st = f a st'.
Proof. unfold mbind, M_bind. by intros ->. Qed.

Lemma bind_inl {A B} (m : M A) (f : A → M B) st e st' :
  m st = (inl e, st') → (m ≫= f) st = (inl e, st').
Proof. unfold mbind, M_bind. by intros ->. Qed.

(** ** The error policy of the method boundary *)

Lemma try_rethrow_inl {A} (body : M A) st e st' :
  body st = (inl e, st') →
  try_catch body rethrow st
  = (inl (HttpException (message e) INTERNAL_SERVER_ERROR), st').
Proof. unfold try_catch. by intros ->. Qed.

Lemma try_rethrow_inr {A} (body : M A) st a st' :
  body st = (inr a, st') → try_catch body rethrow st = (inr a, st').
Proof. unfold try_catch. by intros ->. Qed.

(** Whatever leaves a method as an error is an [HttpException] of status
    500 whose message is the message of an error raised in the [try]
    block. *)
Lemma try_rethrow_inv {A} (body : M A) st e st' :
  try_catch body rethrow st = (inl e, st') →
  ∃ e0, body st = (inl e0, st') ∧
        e = HttpException (message e0) INTERNAL_SERVER_ERROR.
Proof.
  unfold try_catch. destruct (body st) as [[e0|a] st0]; [|done].
  intros [= <- <-]. by exists e0.
Qed.

(** ** The [try] blocks on a healthy store *)

Section healthy_runs.
Context (st : Store) (Hst : healthy st).

Lemma getNote_try_healthy id userId :
  getNote_try id userId st
  = let st' := mkStore (db st) (tail (faults st))
                 (queries st
                  ++ [mkQuery NoteCollection QFindOne
                        (ownedNoteFilter id userId)]) in
    match Mongo.findOne (ownedNoteFilter id userId) (notes (db st)) with
    | None => (inl (HttpException "Note Not Found" NOT_FOUND), st')
    | Some d =>
        let note :=
          Mongo.populate "channel" "name type" (channels (db st))
            (Mongo.select "-_id id content tags channel status" d) in
        (inr (mkResponse
                ({[ "id" := prop note "id";
                    "content" := prop note "content";
                    "tags" := prop note "tags";
                    "channel" := prop note "channel" ]} : obj) OK), st')
    end.
Proof.
  unfold getNote_try, noteModel.findOne_select_populate_lean.
  erewrite bind_inr; [|apply await_healthy; stay_healthy]. simpl.
  rewrite castFilter_ownedNote.
  by destruct (Mongo.findOne _ _).
Qed.

Lemma updateNote_try_healthy id userId payload :
  updateNote_try id userId payload st
  = let r := Mongo.updateOne (ownedNoteFilter id userId)
               (filter (λ kv, kv.1 ∈ notePaths) payload)
               (notes (db st)) in
    (inr (mkResponse (mkUpdated id r.2.1 r.2.2) OK),
     mkStore (set_notes r.1 (db st)) (tail (faults st))
       (queries st
        ++ [mkQuery NoteCollection QUpdateOne
              (ownedNoteFilter id userId)])).
Proof.
  unfold updateNote_try, noteModel.updateOne.
  erewrite bind_inr; [|apply await_healthy; stay_healthy]. simpl.
  by rewrite castFilter_ownedNote.
Qed.

Lemma getNotes_try_healthy query userId :
  getNotes_try query userId st
  = let page :=
      Mongo.select "-_id id content tags status"
        <$> Mongo.limit (limit query) (Mongo.skip (skip query)
              (Mongo.find [("user", SStr userId)] (notes (db st)))) in
    let total :=
      Mongo.countDocuments
        (castFilter (strictQuery (db st)) notePaths
           [("userId", SStr userId)]) (notes (db st)) in
    (inr (mkResponse (mkPage page (mkPageMeta total query)) OK),
     mkStore (db st) (tail (tail (faults st)))
       ((queries st
         ++ [mkQuery NoteCollection QFind [("user", SStr userId)]])
        ++ [mkQuery NoteCollection QCountDocuments
              [("userId", SStr userId)]])).
Proof.
  unfold getNotes_try, noteModel.find_select_skip_limit_lean,
    noteModel.countDocuments.
  erewrite bind_inr; [|apply await_healthy; stay_healthy]. simpl.
  erewrite bind_inr; [|apply await_healthy; stay_healthy]. simpl.
  by rewrite castFilter_user.
Qed.

Lemma create_then_respond fields :
  (noteModel.create fields ≫= λ newNote,
     mret (mkResponse (mkCreated (doc_id newNote)) CREATED)) st
  = (inr (mkResponse
            (mkCreated (Some (newObjectId (oidCounter (db st)))))
            CREATED),
     mkStore
       (set_oidCounter (N.succ (oidCounter (db st)))
          (set_notes
             (notes (db st) ++ [noteModel.document (db st) fields])
             (db st)))
       (tail (faults st))
       (queries st ++ [mkQuery NoteCollection QCreate []])).
Proof.
  unfold noteModel.create.
  erewrite bind_inr; [|apply await_healthy; stay_healthy]. simpl.
  unfold mret, M_ret, doc_id, noteModel.document.
  by rewrite lookup_insert_eq.
Qed.

Lemma deleteNote_try_healthy id userId :
  deleteNote_try id userId st
  = let q1 := mkQuery NoteCollection QFindOne (ownedNoteFilter id userId) in
    match Mongo.findOne (ownedNoteFilter id userId) (notes (db st)) with
    | None =>
        (inl (HttpException "Note Not Found" NOT_FOUND),
         mkStore (db st) (tail (faults st)) (queries st ++ [q1]))
    | Some note =>
        let ref := default SNull (note !! "channel") in
        let rn := Mongo.deleteOne (ownedNoteFilter id userId)
                    (notes (db st)) in
        let rc := Mongo.deleteOne [("_id", ref)] (channels (db st)) in
        (inr (mkResponse (mkDeleted id rn.2) NO_CONTENT),
         mkStore (set_channels rc.1 (set_notes rn.1 (db st)))
           (tail (tail (tail (faults st))))
           (((queries st ++ [q1])
             ++ [mkQuery NoteCollection QDeleteOne
                   (ownedNoteFilter id userId)])
            ++ [mkQuery ChannelCollection QDeleteOne [("_id", ref)]]))
    end.
Proof.
  unfold deleteNote_try, noteModel.findOne.
  erewrite bind_inr; [|apply await_healthy; stay_healthy]. simpl.
  rewrite castFilter_ownedNote.
  destruct (Mongo.findOne _ _) as [note|]; [|done].
  unfold Promise_all, noteModel.deleteOne, channelModel.deleteOne.
  unfold mbind, M_bind.
  rewrite await_healthy by stay_healthy. simpl.
  rewrite await_healthy by stay_healthy. simpl.
  by rewrite castFilter_ownedNote, castFilter_channel_id.
Qed.

End healthy_runs.

Lemma createNote_try_healthy st payload userId :
  healthy st →
  createNote_try payload userId st
  = let respond channelId :=
      noteModel.create
        (newNoteFields (content payload) (tags payload) channelId userId)
      ≫= λ newNote, mret (mkResponse (mkCreated (doc_id newNote)) CREATED) in
    if falsy (channelId payload) then
      let st1 := mkStore (db st) (tail (faults st))
                   (queries st
                    ++ [mkQuery ChannelCollection QFindOne
                          (defaultChannelFilter userId)]) in
      match Mongo.findOne (defaultChannelFilter userId) (channels (db st)) with
      | None =>
          (inl (HttpException
                  "You need to connect to at least one channel" NOT_FOUND),
           st1)
      | Some channel => respond (doc_id channel) st1
      end
    else respond (channelId payload) st.
Proof.
  intros Hst. unfold createNote_try. simpl.
  destruct (falsy (channelId payload)); [|done].
  unfold channelModel.findOne.
  unfold mbind, M_bind.
  rewrite await_healthy by stay_healthy. simpl.
  rewrite castFilter_defaultChannel.
  by destruct (Mongo.findOne _ _).
Qed.

(** The fields of the document [createNote] stores. *)
Lemma document_lookups d content tags userId c :
  let n := noteModel.document d
             (newNoteFields content tags (Some c) userId) in
  n !! "_id" = Some (SStr (newObjectId (oidCounter d))) ∧
  n !! "content" = Some (SStr content) ∧
  n !! "tags" = Some (SList tags) ∧
  n !! "channel" = Some (SStr c) ∧
  n !! "user" = Some (SStr userId).
Proof.
  unfold noteModel.document, newNoteFields.
  repeat split; [by rewrite lookup_insert_eq|..];
    (rewrite lookup_insert_ne by done; apply lookup_union_Some_l;
     by simplify_map_eq).
Qed.

(** ** Error collapse *)

Lemma failure_try_rethrow {A} (body : M A) st e st' :
  failure (body st) = Some (e, st') →
  failure (try_catch body rethrow st)
  = Some (HttpException (message e) INTERNAL_SERVER_ERROR, st').
Proof.
  unfold failure, try_catch.
  destruct (body st) as [[e0|a] st0]; simpl; [|done]. by intros [= -> ->].
Qed.

(** C2.  For each of the five methods: an error raised inside the [try]
    block, whatever its kind and status, leaves the method as an
    [HttpException] with status INTERNAL_SERVER_ERROR (500) that carries
    the message of the original error and nothing else of it. *)
Theorem error_collapse (m : Method) (st st' : Store) (e : exn) :
  raised_in_try m st = Some (e, st') →
  thrown m st = Some (HttpException (message e) INTERNAL_SERVER_ERROR, st')
  ∧ status_code INTERNAL_SERVER_ERROR = 500%Z.
Proof.
  intros H. split; [|done].
  destruct m; simpl in *; by apply failure_try_rethrow.
Qed.

(** The deliberately raised "Note Not Found" (status NOT_FOUND) leaves
    [getNote] with status INTERNAL_SERVER_ERROR. *)
Lemma error_collapse_witness :
  let st := Sample.store true in
  let q := mkQuery NoteCollection QFindOne
             (ownedNoteFilter Sample.n1 Sample.u2) in
  raised_in_try (GetNote Sample.n1 Sample.u2) st
  = Some (HttpException "Note Not Found" NOT_FOUND, issued q st)
  ∧ thrown (GetNote Sample.n1 Sample.u2) st
    = Some (HttpException "Note Not Found" INTERNAL_SERVER_ERROR,
            issued q st).
Proof.
  intros st q.
  assert (H : raised_in_try (GetNote Sample.n1 Sample.u2) st
              = Some (HttpException "Note Not Found" NOT_FOUND, issued q st))
    by (vm_compute; reflexivity).
  split; [exact H|].
  exact (proj1 (error_collapse _ _ _ _ H)).
Defined.

(** Nothing but status 500 ever leaves a method. *)
Lemma thrown_status (m : Method) (st st' : Store) (e : exn) :
  thrown m st = Some (e, st') →
  ∃ e0, raised_in_try m st = Some (e0, st') ∧
        e = HttpException (message e0) INTERNAL_SERVER_ERROR.
Proof.
  assert (Hgen : ∀ A (body : M A),
    failure (try_catch body rethrow st) = Some (e, st') →
    ∃ e0, failure (body st) = Some (e0, st') ∧
          e = HttpException (message e0) INTERNAL_SERVER_ERROR).
  { intros A body. unfold failure, try_catch.
    destruct (body st) as [[e0|a] st0]; simpl; [|done].
    intros [= <- <-]. by exists e0. }
  destruct m; simpl; apply Hgen.
Qed.

(** A call the driver rejects fails the method with the driver's message
    under status 500; this is how the methods that raise nothing themselves
    come to throw. *)
Lemma updateNote_rejected st id userId payload msg :
  next_fault st = Some msg →
  updateNote id userId payload st
  = (inl (HttpException msg INTERNAL_SERVER_ERROR),
     issued (mkQuery NoteCollection QUpdateOne (ownedNoteFilter id userId))
       st).
Proof.
  intros H. unfold updateNote.
  apply (try_rethrow_inl _ _ (JsError msg)).
  unfold updateNote_try, noteModel.updateOne.
  eapply bind_inl. by apply await_rejected.
Qed.

Lemma getNotes_rejected st query userId msg :
  next_fault st = Some msg →
  getNotes query userId st
  = (inl (HttpException msg INTERNAL_SERVER_ERROR),
     issued (mkQuery NoteCollection QFind [("user", SStr userId)]) st).
Proof.
  intros H. unfold getNotes.
  apply (try_rethrow_inl _ _ (JsError msg)).
  unfold getNotes_try, noteModel.find_select_skip_limit_lean.
  eapply bind_inl. by apply await_rejected.
Qed.

(** ** createNote *)

Lemma falsy_truthy c : c ≠ "" → falsy (Some c) = false.
Proof. by destruct c. Qed.

Lemma issued_since_app st d f qs :
  issued_since st (mkStore d f (queries st ++ qs)) = qs.
Proof. unfold issued_since. simpl. by rewrite drop_app_length. Qed.

(** Without a [channelId] and without a default channel of the caller, the
    [try] block raises NOT_FOUND, the method throws it as status 500, and
    the database is left as it was. *)
Lemma createNote_no_default_channel st payload userId :
  healthy st →
  falsy (channelId payload) = true →
  Mongo.find (defaultChannelFilter userId) (channels (db st)) = [] →
  let st' := issued (mkQuery ChannelCollection QFindOne
                       (defaultChannelFilter userId)) st in
  createNote_try payload userId st
  = (inl (HttpException
            "You need to connect to at least one channel" NOT_FOUND), st')
  ∧ createNote payload userId st
    = (inl (HttpException
              "You need to connect to at least one channel"
              INTERNAL_SERVER_ERROR), st')
  ∧ db st' = db st.
Proof.
  intros Hst Hfalsy Hnone%find_nil_findOne. simpl.
  assert (Htry : createNote_try payload userId st
    = (inl (HttpException
              "You need to connect to at least one channel" NOT_FOUND),
       issued (mkQuery ChannelCollection QFindOne
                 (defaultChannelFilter userId)) st)).
  { rewrite createNote_try_healthy by done. simpl.
    by rewrite Hfalsy, Hnone. }
  split; [done|]. split; [|done].
  unfold createNote. by rewrite (try_rethrow_inl _ _ _ _ Htry).
Qed.

(** C5.  [createNote] without a [channelId] for [Sample.u2], who has no
    default channel, on the sample store: no note is inserted, and the
    error that reaches the caller has status INTERNAL_SERVER_ERROR, not
    NOT_FOUND. *)
Theorem createNote_no_default_channel_status (strict : bool) :
  let st := Sample.store strict in
  let payload := mkCreateNoteDto None "buy milk" ["home"] in
  Mongo.find (defaultChannelFilter Sample.u2) (channels (db st)) = []
  ∧ outcome (createNote payload Sample.u2 st)
    = inl (HttpException "You need to connect to at least one channel"
             INTERNAL_SERVER_ERROR)
  ∧ outcome (createNote_try payload Sample.u2 st)
    = inl (HttpException "You need to connect to at least one channel"
             NOT_FOUND)
  ∧ notes (db (after (createNote payload Sample.u2 st))) = notes (db st).
Proof. destruct strict; vm_compute; by repeat split. Qed.

(** The filter of the default-channel lookup matches the active default
    channels of the caller and no others. *)
Lemma matches_defaultChannel userId ch :
  Mongo.matches (defaultChannelFilter userId) ch
  = active_default_of userId ch.
Proof.
  unfold Mongo.matches, defaultChannelFilter, active_default_of.
  cbn -[Mongo.field_matches]. rewrite andb_true_r, andb_assoc.
  f_equal; [f_equal|].
  - destruct (ch !! "isDefault") as [w|]; simpl; [|done].
    apply bool_decide_ext. split; congruence.
  - destruct (ch !! "user") as [[]|]; simpl; try done;
      try (apply bool_decide_eq_false; congruence).
    apply bool_decide_ext. split; congruence.
  - destruct (ch !! "deletedAt") as [[]|]; simpl; try done;
      by apply bool_decide_eq_false.
Qed.

(** C6.  [createNote] without a [channelId], when exactly one channel of
    the collection has [isDefault = true], [user = userId] and
    [deletedAt = null], whatever other channels there are: the lookup
    with the filter [{ isDefault: true, user: userId, deletedAt: null }]
    and the creation are the two store calls made; one note is appended
    whose channel is that channel's id and whose content, tags and user
    are the payload's and the caller's; the response carries the new
    note's id and status CREATED (201). *)
Theorem createNote_default_channel st payload userId channel cid :
  healthy st →
  falsy (channelId payload) = true →
  List.filter (active_default_of userId) (channels (db st)) = [channel] →
  channel !! "_id" = Some (SStr cid) →
  ∃ newNote newId,
    outcome (createNote payload userId st)
    = inr (mkResponse (mkCreated (Some newId)) CREATED)
    ∧ status_code CREATED = 201%Z
    ∧ notes (db (after (createNote payload userId st)))
      = notes (db st) ++ [newNote]
    ∧ channels (db (after (createNote payload userId st)))
      = channels (db st)
    ∧ newNote !! "_id" = Some (SStr newId)
    ∧ newNote !! "content" = Some (SStr (content payload))
    ∧ newNote !! "tags" = Some (SList (tags payload))
    ∧ newNote !! "channel" = Some (SStr cid)
    ∧ newNote !! "user" = Some (SStr userId)
    ∧ issued_since st (after (createNote payload userId st))
      = [mkQuery ChannelCollection QFindOne
           [("isDefault", SBool true); ("user", SStr userId);
            ("deletedAt", SNull)];
         mkQuery NoteCollection QCreate []].
Proof.
  intros Hst Hfalsy Hactive Hid.
  assert (Hone : Mongo.findOne (defaultChannelFilter userId)
                   (channels (db st)) = Some channel).
  { apply find_singleton_findOne. rewrite <-Hactive. unfold Mongo.find.
    apply List.filter_ext. intros ch. apply matches_defaultChannel. }
  pose proof (document_lookups (db st) (content payload) (tags payload)
                userId cid) as (H_id & Hcontent & Htags & Hchannel & Huser).
  eexists _, _. unfold createNote, outcome, after.
  erewrite try_rethrow_inr; last first.
  { rewrite createNote_try_healthy by done. simpl.
    rewrite Hfalsy, Hone. apply create_then_respond. stay_healthy. }
  unfold doc_id. rewrite Hid. simpl.
  repeat split; try done.
  by rewrite <-(assoc_L (++)), issued_since_app.
Qed.

(** Four channels, of which the third alone is an active default channel
    of [Sample.u1]: before it a soft-deleted default of theirs and the
    default of another user, after it a channel of theirs that is not the
    default. *)
Lemma createNote_default_channel_witness :
  let st := Fixtures.store [Sample.note1]
              [Fixtures.retired; Fixtures.foreign; Sample.chan1;
               Fixtures.side] in
  ∃ (newNote : doc) newId,
    outcome (createNote (mkCreateNoteDto None "buy milk" ["home"]) Sample.u1
               st)
    = inr (mkResponse (mkCreated (Some newId)) CREATED)
    ∧ notes (db (after (createNote (mkCreateNoteDto None "buy milk" ["home"])
                          Sample.u1 st)))
      = [Sample.note1; newNote]
    ∧ newNote !! "channel" = Some (SStr Sample.c1)
    ∧ newNote !! "content" = Some (SStr "buy milk")
    ∧ newNote !! "tags" = Some (SList ["home"])
    ∧ newNote !! "user" = Some (SStr Sample.u1).
Proof.
  destruct (createNote_default_channel
              (Fixtures.store [Sample.note1]
                 [Fixtures.retired; Fixtures.foreign; Sample.chan1;
                  Fixtures.side])
              (mkCreateNoteDto None "buy milk" ["home"]) Sample.u1
              Sample.chan1 Sample.c1)
    as (newNote & newId & Hout & _ & Hnotes & _ & _ & Hcontent & Htags
        & Hch & Huser & _);
    [reflexivity..|].
  by exists newNote, newId.
Defined.

(** C9.  [createNote] with a truthy [channelId]: the creation is the only
    store call made, whatever the Channel collection holds; the note is
    appended with that [channelId] as its channel. *)
Theorem createNote_given_channel st payload userId c :
  healthy st →
  channelId payload = Some c →
  c ≠ "" →
  let r := createNote payload userId st in
  let newNote :=
    noteModel.document (db st)
      (newNoteFields (content payload) (tags payload) (Some c) userId) in
  outcome r
  = inr (mkResponse (mkCreated (Some (newObjectId (oidCounter (db st)))))
           CREATED)
  ∧ notes (db (after r)) = notes (db st) ++ [newNote]
  ∧ newNote !! "channel" = Some (SStr c)
  ∧ channels (db (after r)) = channels (db st)
  ∧ issued_since st (after r) = [mkQuery NoteCollection QCreate []].
Proof.
  intros Hst Hc Hne. simpl.
  pose proof (document_lookups (db st) (content payload) (tags payload)
                userId c) as (_ & _ & _ & Hchannel & _).
  unfold createNote, outcome, after.
  erewrite try_rethrow_inr; last first.
  { rewrite createNote_try_healthy by done. simpl.
    rewrite Hc, (falsy_truthy _ Hne). by apply create_then_respond. }
  simpl. repeat split; try done. by rewrite issued_since_app.
Qed.

(** No channel of the sample store has the id [Sample.gone]. *)
Lemma createNote_given_channel_witness :
  let r := createNote
             (mkCreateNoteDto (Some Sample.gone) "buy milk" ["home"])
             Sample.u2 (Sample.store true) in
  Mongo.findOne [("_id", SStr Sample.gone)]
    (channels (db (Sample.store true)))
  = None
  ∧ outcome r = inr (mkResponse (mkCreated (Some (newObjectId 7))) CREATED)
  ∧ (∃ newNote, notes (db (after r)) = [Sample.note1; Sample.note2; newNote]
                ∧ newNote !! "channel" = Some (SStr Sample.gone))
  ∧ issued_since (Sample.store true) (after r)
    = [mkQuery NoteCollection QCreate []].
Proof.
  destruct (createNote_given_channel (Sample.store true)
              (mkCreateNoteDto (Some Sample.gone) "buy milk" ["home"])
              Sample.u2 Sample.gone)
    as (Hout & Hnotes & Hch & _ & Hq); [reflexivity | reflexivity | done |].
  split; [reflexivity|]. split; [exact Hout|]. split; [|exact Hq].
  eexists. split; [exact Hnotes | exact Hch].
Defined.

(** ** updateNote *)

Lemma set_notes_same d : set_notes (notes d) d = d.
Proof. by destruct d. Qed.

(** C8.  [updateNote] where the filter [{ _id: id, user: userId }] matches
    no note: the method returns, with status OK and both counts 0; the
    database is left as it was; and the conditional update is the only
    store call made (there is no lookup before it). *)
Theorem updateNote_no_match st id userId payload :
  healthy st →
  Mongo.find (ownedNoteFilter id userId) (notes (db st)) = [] →
  let r := updateNote id userId payload st in
  outcome r = inr (mkResponse (mkUpdated id 0 0) OK)
  ∧ db (after r) = db st
  ∧ issued_since st (after r)
    = [mkQuery NoteCollection QUpdateOne (ownedNoteFilter id userId)].
Proof.
  intros Hst Hnone%find_nil_findOne. simpl.
  unfold updateNote, outcome, after.
  erewrite try_rethrow_inr; [|by apply updateNote_try_healthy].
  rewrite updateOne_None by done. simpl.
  by rewrite set_notes_same, issued_since_app.
Qed.

Lemma updateNote_no_match_witness :
  outcome (updateNote Sample.n1 Sample.u2
             {[ "content" := SStr "mine now" ]} (Sample.store false))
  = inr (mkResponse (mkUpdated Sample.n1 0 0) OK)
  ∧ db (after (updateNote Sample.n1 Sample.u2
                 {[ "content" := SStr "mine now" ]} (Sample.store false)))
    = db (Sample.store false).
Proof.
  destruct (updateNote_no_match (Sample.store false) Sample.n1 Sample.u2
              {[ "content" := SStr "mine now" ]})
    as (Hout & Hdb & _); [reflexivity | reflexivity |].
  split; [exact Hout | exact Hdb].
Defined.

(** ** Ownership *)

Lemma matches_owned id userId d :
  Mongo.matches (ownedNoteFilter id userId) d = true →
  owned_by userId d = true.
Proof.
  unfold Mongo.matches, ownedNoteFilter, owned_by. simpl.
  rewrite !andb_true_iff. tauto.
Qed.

Lemma matches_user userId d :
  Mongo.matches [("user", SStr userId)] d = owned_by userId d.
Proof. unfold Mongo.matches, owned_by. simpl. by rewrite andb_true_r. Qed.

(** A note whose [user] field is another user is not [userId]'s. *)
Lemma other_user_not_owned u1 u2 d :
  d !! "user" = Some (SStr u1) → u1 ≠ u2 → owned_by u2 d = false.
Proof.
  unfold owned_by. intros -> Hne. simpl.
  apply bool_decide_eq_false. congruence.
Qed.

Section isolation.
Context (st : Store) (Hst : healthy st) (userId : string).

(** What [getNote] returns is read off a note of the caller. *)
Lemma getNote_owned id resp :
  outcome (getNote id userId st) = inr resp →
  ∃ d, d ∈ notes (db st) ∧ owned_by userId d = true ∧
       Mongo.findOne (ownedNoteFilter id userId) (notes (db st)) = Some d.
Proof.
  unfold getNote, outcome, try_catch.
  rewrite getNote_try_healthy by done. simpl.
  destruct (Mongo.findOne _ _) as [d|] eqn:Hfind; [|done].
  intros _. exists d. apply findOne_Some in Hfind as [Hin Hm].
  eauto using matches_owned.
Qed.

(** Every item of the page [getNotes] returns is the projection of a
    note of the caller. *)
Lemma getNotes_owned query resp item :
  outcome (getNotes query userId st) = inr resp →
  item ∈ page_data (data resp) →
  ∃ d, d ∈ notes (db st) ∧ owned_by userId d = true ∧
       item = Mongo.select "-_id id content tags status" d.
Proof.
  unfold getNotes, outcome, try_catch.
  rewrite getNotes_try_healthy by done. simpl. intros [= <-]. simpl.
  intros (d & -> & Hd)%list_elem_of_fmap. exists d.
  assert (Hfind : d ∈ Mongo.find [("user", SStr userId)] (notes (db st))).
  { unfold Mongo.limit, Mongo.skip in Hd.
    destruct (decide (limit query = 0));
      [|apply subseteq_take in Hd]; by apply subseteq_drop in Hd. }
  unfold Mongo.find in Hfind.
  apply list_elem_of_In, filter_In in Hfind as [Hin Hm].
  rewrite matches_user in Hm. by rewrite list_elem_of_In.
Qed.

(** [updateNote] leaves every note that is not the caller's where it is
    and as it is, and the Channel collection alone. *)
Lemma updateNote_frame id payload i d :
  notes (db st) !! i = Some d → owned_by userId d = false →
  let st' := after (updateNote id userId payload st) in
  notes (db st') !! i = Some d
  ∧ length (notes (db st')) = length (notes (db st))
  ∧ channels (db st') = channels (db st).
Proof.
  intros Hi Hd. unfold updateNote, after.
  erewrite try_rethrow_inr; [|by apply updateNote_try_healthy]. simpl.
  split; [|by rewrite updateOne_length].
  apply updateOne_frame; [done|].
  destruct (Mongo.matches _ d) eqn:Hm; [|done].
  apply matches_owned in Hm. congruence.
Qed.

(** [deleteNote] leaves the notes that are not the caller's in the
    collection, in their order. *)
Lemma deleteNote_frame id :
  let st' := after (deleteNote id userId st) in
  List.filter (λ d, negb (owned_by userId d)) (notes (db st'))
  = List.filter (λ d, negb (owned_by userId d)) (notes (db st)).
Proof.
  unfold deleteNote, after, try_catch.
  rewrite deleteNote_try_healthy by done. simpl.
  destruct (Mongo.findOne _ _) as [note|]; [|done]. simpl.
  apply deleteOne_frame. intros d Hd.
  destruct (Mongo.matches _ d) eqn:Hm; [|done].
  apply matches_owned in Hm. rewrite Hm in Hd. done.
Qed.

(** The calls of [getNote], [updateNote] and [deleteNote] on the Note
    collection all carry [user = userId]. *)
Lemma getNote_owner_scoped id q :
  q ∈ issued_since st (after (getNote id userId st)) →
  q_collection q = NoteCollection → owner_scoped userId q.
Proof.
  unfold getNote, after, try_catch.
  rewrite getNote_try_healthy by done. simpl.
  destruct (Mongo.findOne _ _); simpl; rewrite issued_since_app;
    intros ->%list_elem_of_singleton _; unfold owner_scoped; simpl;
    set_solver.
Qed.

Lemma updateNote_owner_scoped id payload q :
  q ∈ issued_since st (after (updateNote id userId payload st)) →
  q_collection q = NoteCollection → owner_scoped userId q.
Proof.
  unfold updateNote, after.
  erewrite try_rethrow_inr; [|by apply updateNote_try_healthy]. simpl.
  rewrite issued_since_app.
  intros ->%list_elem_of_singleton _; unfold owner_scoped; simpl.
  set_solver.
Qed.

Lemma deleteNote_owner_scoped id q :
  q ∈ issued_since st (after (deleteNote id userId st)) →
  q_collection q = NoteCollection → owner_scoped userId q.
Proof.
  unfold deleteNote, after, try_catch.
  rewrite deleteNote_try_healthy by done. simpl.
  destruct (Mongo.findOne _ _); simpl;
    rewrite <-?(assoc_L (++)), issued_since_app; simpl;
    intros Hq Hcoll; unfold owner_scoped;
    repeat (apply elem_of_cons in Hq as [->|Hq]; [simpl in *; set_solver|]);
    by apply elem_of_nil in Hq.
Qed.

End isolation.

(** ** getNotes *)

Lemma find_all c : Mongo.find [] c = c.
Proof.
  unfold Mongo.find. induction c as [|d c IH]; [done|]. simpl.
  by rewrite IH.
Qed.

Section getNotes_page.
Context (st : Store) (Hst : healthy st).
Context (query : GetNotesQueryDto) (userId : string).

(** The number of notes the page query matches: the caller's notes. *)
Let N := length (Mongo.find [("user", SStr userId)] (notes (db st))).

Lemma getNotes_returns :
  ∃ resp, outcome (getNotes query userId st) = inr resp
          ∧ statusCode resp = OK.
Proof.
  unfold getNotes, outcome.
  erewrite try_rethrow_inr; [|by apply getNotes_try_healthy].
  by eexists.
Qed.

(** With a positive limit the page holds [min(L, max(0, N - S))] items
    (on naturals the subtraction stops at 0). *)
Lemma getNotes_page_size resp :
  0 < limit query →
  outcome (getNotes query userId st) = inr resp →
  length (page_data (data resp)) = limit query `min` (N - skip query).
Proof.
  intros Hlimit. unfold getNotes, outcome.
  erewrite try_rethrow_inr; [|by apply getNotes_try_healthy].
  simpl. intros [= <-]. simpl.
  rewrite length_fmap. unfold Mongo.limit, Mongo.skip.
  destruct (decide (limit query = 0)); [lia|].
  by rewrite length_take, length_drop.
Qed.

(** The total of the metadata: under a strict query filter the count of
    all notes of the collection; otherwise the count of the notes that
    have a field [userId] matching the caller. *)
Lemma getNotes_totalRecord resp :
  outcome (getNotes query userId st) = inr resp →
  totalRecord (page_meta (data resp))
  = if strictQuery (db st) then length (notes (db st))
    else Mongo.countDocuments [("userId", SStr userId)] (notes (db st)).
Proof.
  unfold getNotes, outcome.
  erewrite try_rethrow_inr; [|by apply getNotes_try_healthy].
  simpl. intros [= <-]. simpl. rewrite castFilter_userId.
  destruct (strictQuery (db st)); [|done].
  unfold Mongo.countDocuments. by rewrite find_all.
Qed.

End getNotes_page.

(** C3.  [getNotes] for [Sample.u1] on the sample store, where that user
    owns one of the two notes: the page holds that one note, the count query is issued
    with the filter [{ userId }], and the total of the metadata is 2 under
    a strict query filter and 0 otherwise, never the caller's 1. *)
Theorem getNotes_totalRecord_sample (strict : bool) :
  let st := Sample.store strict in
  let query := mkGetNotesQuery 0 10 in
  Mongo.countDocuments [("user", SStr Sample.u1)] (notes (db st)) = 1
  ∧ ∃ items,
      outcome (getNotes query Sample.u1 st)
      = inr (mkResponse
               (mkPage items (mkPageMeta (if strict then 2 else 0) query))
               OK)
      ∧ length items = 1
      ∧ issued_since st (after (getNotes query Sample.u1 st))
        = [mkQuery NoteCollection QFind [("user", SStr Sample.u1)];
           mkQuery NoteCollection QCountDocuments
             [("userId", SStr Sample.u1)]].
Proof.
  simpl. split; [done|].
  exists [Mongo.select "-_id id content tags status" Sample.note1].
  destruct strict; by vm_compute.
Qed.

(** C1.  [getNotes] for [Sample.u2] on the sample store: of the two calls
    it makes on the Note collection, the count carries no condition on
    [user]; under a strict query filter its result, the total shown to
    that user, counts the note of [Sample.u1] as well. *)
Theorem getNotes_count_not_owner_scoped (strict : bool) :
  let st := Sample.store strict in
  let r := getNotes (mkGetNotesQuery 0 10) Sample.u2 st in
  (∃ q, q ∈ issued_since st (after r)
        ∧ q_collection q = NoteCollection
        ∧ q_kind q = QCountDocuments
        ∧ ¬ owner_scoped Sample.u2 q)
  ∧ Mongo.countDocuments [("user", SStr Sample.u2)] (notes (db st)) = 1
  ∧ ∃ resp, outcome r = inr resp
            ∧ totalRecord (page_meta (data resp)) = if strict then 2 else 0.
Proof.
  simpl. split; [|split; [done|]].
  - exists (mkQuery NoteCollection QCountDocuments
              [("userId", SStr Sample.u2)]).
    split; [|split; [done|split; [done|]]].
    + destruct strict; apply list_elem_of_further, list_elem_of_here.
    + unfold owner_scoped. simpl. by intros [=]%list_elem_of_singleton.
  - destruct strict; by eexists.
Qed.

(** ** getNote and deleteNote where nothing matches *)

Lemma getNote_not_found st id userId :
  healthy st →
  Mongo.find (ownedNoteFilter id userId) (notes (db st)) = [] →
  let st' := issued (mkQuery NoteCollection QFindOne
                       (ownedNoteFilter id userId)) st in
  getNote_try id userId st
  = (inl (HttpException "Note Not Found" NOT_FOUND), st')
  ∧ getNote id userId st
    = (inl (HttpException "Note Not Found" INTERNAL_SERVER_ERROR), st').
Proof.
  intros Hst Hnone%find_nil_findOne. simpl.
  assert (Htry : getNote_try id userId st
    = (inl (HttpException "Note Not Found" NOT_FOUND),
       issued (mkQuery NoteCollection QFindOne (ownedNoteFilter id userId))
         st)).
  { rewrite getNote_try_healthy by done. simpl. by rewrite Hnone. }
  split; [done|]. unfold getNote. by rewrite (try_rethrow_inl _ _ _ _ Htry).
Qed.

Lemma deleteNote_not_found st id userId :
  healthy st →
  Mongo.find (ownedNoteFilter id userId) (notes (db st)) = [] →
  let st' := issued (mkQuery NoteCollection QFindOne
                       (ownedNoteFilter id userId)) st in
  deleteNote_try id userId st
  = (inl (HttpException "Note Not Found" NOT_FOUND), st')
  ∧ deleteNote id userId st
    = (inl (HttpException "Note Not Found" INTERNAL_SERVER_ERROR), st').
Proof.
  intros Hst Hnone%find_nil_findOne. simpl.
  assert (Htry : deleteNote_try id userId st
    = (inl (HttpException "Note Not Found" NOT_FOUND),
       issued (mkQuery NoteCollection QFindOne (ownedNoteFilter id userId))
         st)).
  { rewrite deleteNote_try_healthy by done. simpl. by rewrite Hnone. }
  split; [done|].
  unfold deleteNote. by rewrite (try_rethrow_inl _ _ _ _ Htry).
Qed.

(** ** deleteNote *)

Lemma find_app flt c1 c2 :
  Mongo.find flt (c1 ++ c2) = Mongo.find flt c1 ++ Mongo.find flt c2.
Proof. unfold Mongo.find. apply List.filter_app. Qed.

(** Where exactly one note matches, deleting the first match leaves none. *)
Lemma deleteOne_only flt c d :
  Mongo.find flt c = [d] →
  ∃ c1 c2, c = c1 ++ d :: c2 ∧ Mongo.deleteOne flt c = (c1 ++ c2, 1)
           ∧ Mongo.find flt (c1 ++ c2) = [].
Proof.
  intros Hone.
  pose proof (find_singleton_findOne _ _ _ Hone) as Hfirst.
  destruct (findOne_Some _ _ _ Hfirst) as [_ Hm].
  destruct (deleteOne_Some flt c d Hfirst)
    as (c1 & c2 & -> & Hc1%find_nil_findOne & Hdel).
  exists c1, c2. split; [done|]. split; [done|].
  rewrite find_app, Hc1 in Hone. rewrite find_app, Hc1.
  unfold Mongo.find in *. simpl in *. rewrite Hm in Hone.
  by injection Hone.
Qed.

(** [deleteNote] on the one note the filter matches: the note leaves the
    collection, every other note stays; the channel the note refers to is
    deleted by its [_id] alone; the response counts one deletion under
    status NO_CONTENT; and [getNote] for the same id then raises NOT_FOUND
    in its [try] block and throws status 500. *)
Lemma deleteNote_cascade st id userId note c :
  healthy st →
  Mongo.find (ownedNoteFilter id userId) (notes (db st)) = [note] →
  note !! "channel" = Some (SStr c) →
  let st' := after (deleteNote id userId st) in
  outcome (deleteNote id userId st)
  = inr (mkResponse (mkDeleted id 1) NO_CONTENT)
  ∧ (∃ n1 n2, notes (db st) = n1 ++ note :: n2
              ∧ notes (db st') = n1 ++ n2)
  ∧ channels (db st')
    = (Mongo.deleteOne [("_id", SStr c)] (channels (db st))).1
  ∧ outcome (getNote_try id userId st')
    = inl (HttpException "Note Not Found" NOT_FOUND)
  ∧ outcome (getNote id userId st')
    = inl (HttpException "Note Not Found" INTERNAL_SERVER_ERROR).
Proof.
  intros Hst Hone Hchannel.
  destruct (deleteOne_only _ _ _ Hone) as (n1 & n2 & Hnotes & Hdel & Hnone).
  assert (Hrun : deleteNote id userId st
    = (inr (mkResponse (mkDeleted id 1) NO_CONTENT),
       mkStore
         (set_channels
            (Mongo.deleteOne [("_id", SStr c)] (channels (db st))).1
            (set_notes (n1 ++ n2) (db st)))
         (tail (tail (tail (faults st))))
         (((queries st
            ++ [mkQuery NoteCollection QFindOne (ownedNoteFilter id userId)])
           ++ [mkQuery NoteCollection QDeleteOne
                 (ownedNoteFilter id userId)])
          ++ [mkQuery ChannelCollection QDeleteOne [("_id", SStr c)]]))).
  { unfold deleteNote. apply try_rethrow_inr.
    rewrite deleteNote_try_healthy by done. simpl.
    by rewrite (find_singleton_findOne _ _ _ Hone), Hchannel, Hdel. }
  simpl. rewrite Hrun. unfold outcome, after. simpl.
  split; [done|]. split; [by exists n1, n2|]. split; [done|].
  match goal with
  | |- context [getNote_try id userId ?s] =>
      destruct (getNote_not_found s id userId) as [-> ->];
        [stay_healthy | done | done]
  end.
Qed.

(** C4.  [deleteNote] for the note [Sample.n2] of [Sample.u2] on the
    sample store, then [getNote] for the same id: the note is gone, and so
    is the channel it referred to (a channel of [Sample.u1]); the response
    counts one deletion under NO_CONTENT; the [getNote] that follows raises
    NOT_FOUND in its [try] block, and what reaches the caller has status
    INTERNAL_SERVER_ERROR. *)
Theorem deleteNote_then_getNote_status (strict : bool) :
  let st := Sample.store strict in
  let st' := after (deleteNote Sample.n2 Sample.u2 st) in
  outcome (deleteNote Sample.n2 Sample.u2 st)
  = inr (mkResponse (mkDeleted Sample.n2 1) NO_CONTENT)
  ∧ notes (db st') = [Sample.note1]
  ∧ Sample.chan1 !! "user" = Some (SStr Sample.u1)
  ∧ channels (db st) = [Sample.chan1]
  ∧ channels (db st') = []
  ∧ outcome (getNote_try Sample.n2 Sample.u2 st')
    = inl (HttpException "Note Not Found" NOT_FOUND)
  ∧ outcome (getNote Sample.n2 Sample.u2 st')
    = inl (HttpException "Note Not Found" INTERNAL_SERVER_ERROR).
Proof. destruct strict; by vm_compute. Qed.

(** C10.  The response of [deleteNote] does not depend on the Channel
    collection: with any other collection in its place the outcome is the
    same, and where the method returns, its [deletedCount] is the count of
    the deletion on the Note collection. *)
Theorem deleteNote_response_ignores_channels st id userId chs :
  healthy st →
  outcome (deleteNote id userId st)
  = outcome (deleteNote id userId
               (mkStore (set_channels chs (db st)) (faults st) (queries st)))
  ∧ ∀ resp,
      outcome (deleteNote id userId st) = inr resp →
      resp = mkResponse
               (mkDeleted id
                  (Mongo.deleteOne (ownedNoteFilter id userId)
                     (notes (db st))).2)
               NO_CONTENT.
Proof.
  intros Hst. unfold deleteNote, outcome, try_catch.
  rewrite !deleteNote_try_healthy by done. simpl.
  destruct (Mongo.findOne _ _); simpl; [|done].
  split; [done|]. by intros resp [= <-].
Qed.

(** With and without the channel [Sample.c1] in the Channel collection. *)
Lemma deleteNote_response_ignores_channels_witness :
  outcome (deleteNote Sample.n1 Sample.u1 (Sample.store true))
  = outcome (deleteNote Sample.n1 Sample.u1
               (mkStore (set_channels [] (db (Sample.store true))) [] []))
  ∧ outcome (deleteNote Sample.n1 Sample.u1 (Sample.store true))
    = inr (mkResponse (mkDeleted Sample.n1 1) NO_CONTENT).
Proof.
  destruct (deleteNote_response_ignores_channels (Sample.store true)
              Sample.n1 Sample.u1 []) as [Hsame Hcount]; [reflexivity|].
  split; [exact Hsame|]. by vm_compute.
Defined.

(** ** getNote *)

Lemma select_lookup sel d k :
  k ∈ String.words sel → Mongo.select sel d !! k = d !! k.
Proof.
  intros Hk. unfold Mongo.select.
  destruct (d !! k) as [x|] eqn:Hd.
  - apply map_lookup_filter_Some. split; [done|]. by left.
  - apply map_lookup_filter_None. by left.
Qed.

Lemma select_name_type t : Mongo.select "name type" t = channel_view t.
Proof.
  unfold Mongo.select, channel_view. apply map_filter_ext.
  intros k x _. simpl.
  change (String.words "name type") with ["name"; "type"].
  rewrite !elem_of_cons, !elem_of_nil. split.
  - intros [[->|[->|[]]]|[-> _]]; tauto.
  - intros [->|[->|[->|[]]]]; [right|tauto|tauto].
    split; [done|]. by intros [|[|[]]].
Qed.

Lemma populate_lookup_ne path psel chs d k :
  k ≠ path → prop (Mongo.populate path psel chs d) k = field d k.
Proof.
  intros Hk. unfold prop, field, Mongo.populate.
  assert (Hbase : default VUndefined ((VS <$> d : obj) !! k)
                  = from_option VS VUndefined (d !! k)).
  { rewrite lookup_fmap. by destruct (d !! k). }
  destruct (d !! path) as [[]|]; try done;
    by rewrite lookup_insert_ne.
Qed.

Lemma populate_lookup_channel chs d :
  prop (Mongo.populate "channel" "name type" chs d) "channel"
  = resolved_channel chs d.
Proof.
  unfold prop, resolved_channel, Mongo.populate.
  destruct (d !! "channel") as [ref|] eqn:Hd.
  - destruct ref; try (rewrite lookup_insert_eq; simpl;
      destruct (Mongo.findOne _ _); by rewrite ?select_name_type).
    by rewrite lookup_fmap, Hd.
  - by rewrite lookup_fmap, Hd.
Qed.

(** The view of a channel has its [_id], [name] and [type], nothing else. *)
Lemma channel_view_lookup t k :
  channel_view t !! k
  = if decide (k ∈ ["_id"; "name"; "type"]) then t !! k else None.
Proof.
  unfold channel_view. case_decide as Hk.
  - destruct (t !! k) as [x|] eqn:Ht.
    + by apply map_lookup_filter_Some.
    + apply map_lookup_filter_None. by left.
  - apply map_lookup_filter_None. right. by intros x _.
Qed.

(** C7, as the code has it.  Where [{ _id: id, user: userId }] matches a
    note, [getNote] returns status OK and an object with the four
    properties id, content, tags and channel and no other: content and
    tags are those of the first match (its status is fetched and not
    passed on), and the channel is the view with [_id], [name] and [type]
    of the channel the note refers to.  What the property id holds is
    left open here.  Where nothing matches, [getNote] throws, with the
    message "Note Not Found". *)
Theorem getNote_shape st id userId :
  healthy st →
  match Mongo.findOne (ownedNoteFilter id userId) (notes (db st)) with
  | Some note =>
      ∃ idValue,
        outcome (getNote id userId st)
        = inr (mkResponse
                 ({[ "id" := idValue;
                     "content" := field note "content";
                     "tags" := field note "tags";
                     "channel" := resolved_channel (channels (db st)) note ]}
                  : obj)
                 OK)
  | None =>
      ∃ e, outcome (getNote id userId st) = inl e
           ∧ message e = "Note Not Found"
  end.
Proof.
  intros Hst. unfold getNote, outcome, try_catch.
  rewrite getNote_try_healthy by done. simpl.
  destruct (Mongo.findOne _ _) as [note|]; simpl; [|by eexists].
  eexists. rewrite populate_lookup_channel.
  rewrite !(populate_lookup_ne _ _ _ _ "content"),
    !(populate_lookup_ne _ _ _ _ "tags") by done.
  unfold resolved_channel, field.
  rewrite !select_lookup; [done|..];
    change (String.words "-_id id content tags channel status")
      with ["-_id"; "id"; "content"; "tags"; "channel"; "status"];
    set_solver.
Qed.

Lemma getNote_shape_witness :
  ∃ idValue,
    outcome (getNote Sample.n1 Sample.u1 (Sample.store true))
    = inr (mkResponse
             ({[ "id" := idValue;
                 "content" := VS (SStr "buy milk");
                 "tags" := VS (SList ["home"]);
                 "channel" := VObj (channel_view Sample.chan1) ]} : obj)
             OK).
Proof.
  exact (getNote_shape (Sample.store true) Sample.n1 Sample.u1 eq_refl).
Defined.

(** C7, as stated, on the sample store: the object [getNote] returns for
    the note [Sample.n1] is not the one the specification describes; it
    has no status, and its channel has an [_id]. *)
Lemma getNote_shape_counterexample :
  ∃ resp,
    outcome (getNote Sample.n1 Sample.u1 (Sample.store true)) = inr resp
    ∧ Mongo.findOne (ownedNoteFilter Sample.n1 Sample.u1)
        (notes (db (Sample.store true))) = Some Sample.note1
    ∧ Sample.note1 !! "status" = Some (SStr "pending")
    ∧ data resp !! "status" = None
    ∧ (∃ o, data resp !! "channel" = Some (VObj o)
            ∧ o !! "_id" = Some (SStr Sample.c1))
    ∧ data resp ≠ getNote_data_as_specified Sample.note1 Sample.chan1.
Proof.
  eexists. split; [reflexivity|]. split; [reflexivity|].
  split; [reflexivity|]. split; [reflexivity|].
  split; [eexists; split; reflexivity|].
  intros Heq. apply (f_equal (λ o : obj, o !! "status")) in Heq.
  vm_compute in Heq. discriminate.
Qed.

(** * Further properties of the service *)

(** ** getRedisKey *)

(** X1.  The cache keys of [getRedisKey] all start with "note:", the
    parameter can be read back after that prefix, and two keys are equal
    only for equal parameters. *)
Theorem getRedisKey_roundtrip (params other : string) :
  String.substring 0 5 (getRedisKey params) = "note:"
  ∧ String.substring 5 (String.length params) (getRedisKey params) = params
  ∧ (getRedisKey params = getRedisKey other ↔ params = other).
Proof.
  unfold getRedisKey. split; [by destruct params|]. split.
  - change (String.substring 0 (String.length params) params = params).
    induction params as [|a p IH]; [done|]. simpl. by rewrite IH.
  - split; [|by intros ->]. simpl. intros H. by simplify_eq.
Qed.

(** ** What a caller can see of a failure *)

(** X2.  Whatever one of the five methods throws is an [HttpException]
    with status INTERNAL_SERVER_ERROR: no other status, NOT_FOUND
    included, and no plain error ever reaches the caller. *)
Theorem thrown_only_internal_error (m : Method) (st st' : Store) (e : exn) :
  thrown m st = Some (e, st') →
  ∃ msg, e = HttpException msg INTERNAL_SERVER_ERROR.
Proof.
  intros (e0 & _ & ->)%thrown_status. by eexists.
Qed.

Lemma thrown_only_internal_error_witness :
  ∃ st' msg,
    thrown (DeleteNote Sample.n1 Sample.u2) (Sample.store false)
    = Some (HttpException msg INTERNAL_SERVER_ERROR, st').
Proof.
  assert (H : thrown (DeleteNote Sample.n1 Sample.u2) (Sample.store false)
              = Some (HttpException "Note Not Found" INTERNAL_SERVER_ERROR,
                      issued (mkQuery NoteCollection QFindOne
                                (ownedNoteFilter Sample.n1 Sample.u2))
                        (Sample.store false)))
    by (vm_compute; reflexivity).
  destruct (thrown_only_internal_error _ _ _ _ H) as [msg Hmsg].
  eexists _, msg. by rewrite H, Hmsg.
Defined.

Lemma failure_rejected {A} (body : M A) st msg st' :
  body st = (inl (JsError msg), st') →
  failure (try_catch body rethrow st)
  = Some (HttpException msg INTERNAL_SERVER_ERROR, st').
Proof.
  intros H. apply (failure_try_rethrow body st (JsError msg)).
  unfold failure. by rewrite H.
Qed.

(** X3.  When the driver rejects the first store call of a method, the
    method throws the driver's message under status 500, has issued that
    one call only, and the database is as it was. *)
Theorem first_call_rejected (m : Method) (st : Store) (msg : string) :
  next_fault st = Some msg →
  ∃ q, thrown m st
       = Some (HttpException msg INTERNAL_SERVER_ERROR, issued q st)
       ∧ db (issued q st) = db st
       ∧ issued_since st (issued q st) = [q].
Proof.
  intros H.
  assert (Hlog : ∀ q, issued_since st (issued q st) = [q]).
  { intros q. unfold issued. apply issued_since_app. }
  destruct m as [payload userId|id userId|query userId|id userId payload
                |id userId]; simpl.
  - destruct (falsy (channelId payload)) eqn:Hfalsy.
    + eexists. split; [|by split].
      apply failure_rejected. unfold createNote_try. rewrite Hfalsy.
      eapply bind_inl, bind_inl. by apply await_rejected.
    + eexists. split; [|by split].
      apply failure_rejected. unfold createNote_try. rewrite Hfalsy.
      erewrite bind_inr by reflexivity.
      eapply bind_inl. by apply await_rejected.
  - eexists. split; [|by split]. apply failure_rejected.
    eapply bind_inl. by apply await_rejected.
  - eexists. split; [|by split]. apply failure_rejected.
    eapply bind_inl. by apply await_rejected.
  - eexists. split; [|by split]. apply failure_rejected.
    eapply bind_inl. by apply await_rejected.
  - eexists. split; [|by split]. apply failure_rejected.
    eapply bind_inl. by apply await_rejected.
Qed.

Lemma first_call_rejected_witness :
  ∃ q, thrown (UpdateNote Sample.n1 Sample.u1 {[ "content" := SStr "x" ]})
         (with_faults [Some "connection lost"] (Sample.store true))
       = Some (HttpException "connection lost" INTERNAL_SERVER_ERROR,
               issued q
                 (with_faults [Some "connection lost"] (Sample.store true))).
Proof.
  destruct (first_call_rejected
              (UpdateNote Sample.n1 Sample.u1 {[ "content" := SStr "x" ]})
              (with_faults [Some "connection lost"] (Sample.store true))
              "connection lost" eq_refl) as (q & H & _).
  by exists q.
Defined.

(** ** Reads *)

(** X4.  [getNote] and [getNotes] never write: whatever the store and
    whatever the driver does, the database after the call is the database
    before it. *)
Theorem reads_leave_database (st : Store) (id userId : string)
    (query : GetNotesQueryDto) :
  db (after (getNote id userId st)) = db st
  ∧ db (after (getNotes query userId st)) = db st.
Proof.
  split.
  - unfold getNote, after, try_catch, getNote_try, mbind, M_bind,
      noteModel.findOne_select_populate_lean, await.
    destruct (next_fault st); simpl; [done|].
    by destruct (Mongo.findOne _ _).
  - unfold getNotes, after, try_catch, getNotes_try, mbind, M_bind,
      noteModel.find_select_skip_limit_lean, noteModel.countDocuments,
      await.
    destruct (next_fault st); simpl; [done|].
    by destruct (next_fault _).
Qed.

(** ** createNote *)

Lemma document_fields d content tags channelId userId :
  let n := noteModel.document d
             (newNoteFields content tags channelId userId) in
  doc_id n = Some (newObjectId (oidCounter d)) ∧
  n !! "content" = Some (SStr content) ∧
  n !! "tags" = Some (SList tags) ∧
  n !! "user" = Some (SStr userId).
Proof.
  unfold doc_id, noteModel.document, newNoteFields. rewrite lookup_insert_eq.
  split; [done|].
  repeat split; rewrite lookup_insert_ne by done; apply lookup_union_Some_l;
    destruct channelId; by simplify_map_eq.
Qed.

(** X5.  [createNote] is all or nothing.  Where it returns, the status is
    CREATED, exactly one note was appended, the note is the caller's and
    holds the payload's content and tags, its id is the one returned, and
    the Channel collection is untouched; where it throws, the database is
    as it was.  This holds for every store and every fault plan. *)
Theorem createNote_all_or_nothing (st : Store) (payload : CreateNoteDto)
    (userId : string) :
  match outcome (createNote payload userId st) with
  | inr resp =>
      statusCode resp = CREATED
      ∧ ∃ newNote,
          notes (db (after (createNote payload userId st)))
          = notes (db st) ++ [newNote]
          ∧ created_id (data resp) = doc_id newNote
          ∧ newNote !! "user" = Some (SStr userId)
          ∧ newNote !! "content" = Some (SStr (content payload))
          ∧ newNote !! "tags" = Some (SList (tags payload))
          ∧ channels (db (after (createNote payload userId st)))
            = channels (db st)
  | inl _ => db (after (createNote payload userId st)) = db st
  end.
Proof.
  assert (Hcreate : ∀ channelId st0, db st0 = db st →
    let r := try_catch
               (noteModel.create
                  (newNoteFields (content payload) (tags payload) channelId
                     userId)
                ≫= λ newNote,
                  mret (mkResponse (mkCreated (doc_id newNote)) CREATED))
               rethrow st0 in
    match r.1 with
    | inr resp =>
        statusCode resp = CREATED
        ∧ ∃ newNote,
            notes (db r.2) = notes (db st) ++ [newNote]
            ∧ created_id (data resp) = doc_id newNote
            ∧ newNote !! "user" = Some (SStr userId)
            ∧ newNote !! "content" = Some (SStr (content payload))
            ∧ newNote !! "tags" = Some (SList (tags payload))
            ∧ channels (db r.2) = channels (db st)
    | inl _ => db r.2 = db st
    end).
  { intros channelId st0 Hdb.
    unfold try_catch, mbind, M_bind, noteModel.create, await.
    destruct (next_fault st0); simpl; [done|]. rewrite Hdb.
    split; [done|]. eexists. split; [done|].
    pose proof (document_fields (db st) (content payload) (tags payload)
                  channelId userId) as (Hid & Hcontent & Htags & Huser).
    by rewrite Hid. }
  unfold outcome, after, createNote, createNote_try.
  destruct (falsy (channelId payload)); [|by apply Hcreate].
  set (lookup := channelModel.findOne (defaultChannelFilter userId) ≫= _).
  destruct (next_fault st) as [msg|] eqn:Hfault.
  - assert (Hlookup : lookup st
      = (inl (JsError msg),
         issued (mkQuery ChannelCollection QFindOne
                   (defaultChannelFilter userId)) st))
      by (eapply bind_inl; by apply await_rejected).
    unfold try_catch. by rewrite (bind_inl _ _ _ _ _ Hlookup).
  - assert (Hfind : channelModel.findOne (defaultChannelFilter userId) st
      = (inr (Mongo.findOne (defaultChannelFilter userId)
                (channels (db st))),
         mkStore (db st) (tail (faults st))
           (queries st
            ++ [mkQuery ChannelCollection QFindOne
                  (defaultChannelFilter userId)]))).
    { unfold channelModel.findOne. rewrite await_ok by done. simpl.
      by rewrite castFilter_defaultChannel. }
    destruct (Mongo.findOne _ _) as [channel|].
    + assert (Hlookup : lookup st
        = (inr (doc_id channel),
           mkStore (db st) (tail (faults st))
             (queries st
              ++ [mkQuery ChannelCollection QFindOne
                    (defaultChannelFilter userId)])))
        by (unfold lookup; by rewrite (bind_inr _ _ _ _ _ Hfind)).
      pose proof (Hcreate (doc_id channel) _
                    (eq_refl : db (mkStore (db st) (tail (faults st))
                      (queries st
                       ++ [mkQuery ChannelCollection QFindOne
                             (defaultChannelFilter userId)])) = db st))
        as Hrun.
      unfold try_catch in *. by rewrite (bind_inr _ _ _ _ _ Hlookup).
    + assert (Hlookup : lookup st
        = (inl (HttpException
                  "You need to connect to at least one channel" NOT_FOUND),
           mkStore (db st) (tail (faults st))
             (queries st
              ++ [mkQuery ChannelCollection QFindOne
                    (defaultChannelFilter userId)])))
        by (unfold lookup; by rewrite (bind_inr _ _ _ _ _ Hfind)).
      unfold try_catch. by rewrite (bind_inl _ _ _ _ _ Hlookup).
Qed.

(** X6.  An empty [channelId] is no [channelId]: [createNote] with the
    empty string behaves as with the field left out, falling back to the
    caller's default channel. *)
Theorem createNote_empty_channelId (st : Store) (content : string)
    (tags : list string) (userId : string) :
  createNote (mkCreateNoteDto (Some "") content tags) userId st
  = createNote (mkCreateNoteDto None content tags) userId st.
Proof. reflexivity. Qed.

Lemma findOne_skip flt pre d post :
  Mongo.find flt pre = [] → Mongo.matches flt d = true →
  Mongo.findOne flt (pre ++ d :: post) = Some d.
Proof.
  intros Hpre Hd. unfold Mongo.findOne. rewrite find_app, Hpre.
  unfold Mongo.find. simpl. by rewrite Hd.
Qed.

(** X7.  Without a [channelId], [createNote] takes the first channel in
    insertion order that is the caller's, default and not soft-deleted;
    channels before it that fail one of the three conditions are passed
    over and channels after it are not consulted. *)
Theorem createNote_first_default_channel st payload userId pre channel post
    cid :
  healthy st →
  falsy (channelId payload) = true →
  channels (db st) = pre ++ channel :: post →
  Mongo.find (defaultChannelFilter userId) pre = [] →
  Mongo.matches (defaultChannelFilter userId) channel = true →
  channel !! "_id" = Some (SStr cid) →
  ∃ newNote newId,
    outcome (createNote payload userId st)
    = inr (mkResponse (mkCreated (Some newId)) CREATED)
    ∧ notes (db (after (createNote payload userId st)))
      = notes (db st) ++ [newNote]
    ∧ newNote !! "_id" = Some (SStr newId)
    ∧ newNote !! "channel" = Some (SStr cid).
Proof.
  intros Hst Hfalsy Hchannels Hpre Hmatch Hid.
  pose proof (findOne_skip _ _ _ post Hpre Hmatch) as Hfind.
  rewrite <-Hchannels in Hfind.
  pose proof (document_lookups (db st) (content payload) (tags payload)
                userId cid) as (H_id & _ & _ & Hchannel & _).
  eexists _, _. unfold createNote, outcome, after.
  erewrite try_rethrow_inr; last first.
  { rewrite createNote_try_healthy by done. simpl.
    rewrite Hfalsy, Hfind. apply create_then_respond. stay_healthy. }
  unfold doc_id. rewrite Hid. simpl. by repeat split.
Qed.

(** The soft-deleted default comes first and is passed over; of the two
    active defaults the earlier one is taken. *)
Lemma createNote_first_default_channel_witness :
  let st := Fixtures.store []
              [Fixtures.retired; Sample.chan1; Fixtures.second] in
  ∃ (newNote : doc) newId,
    outcome (createNote (mkCreateNoteDto None "buy milk" ["home"])
               Sample.u1 st)
    = inr (mkResponse (mkCreated (Some newId)) CREATED)
    ∧ notes (db (after (createNote (mkCreateNoteDto None "buy milk" ["home"])
                          Sample.u1 st)))
      = [newNote]
    ∧ newNote !! "channel" = Some (SStr Sample.c1).
Proof.
  destruct (createNote_first_default_channel
              (Fixtures.store []
                 [Fixtures.retired; Sample.chan1; Fixtures.second])
              (mkCreateNoteDto None "buy milk" ["home"]) Sample.u1
              [Fixtures.retired] Sample.chan1 [Fixtures.second] Sample.c1)
    as (newNote & newId & Hout & Hnotes & _ & Hch); [reflexivity..|].
  by exists newNote, newId.
Defined.

(** Where [createNote] returns on a healthy store, the store it leaves. *)
Lemma createNote_returns st payload userId resp :
  healthy st →
  outcome (createNote payload userId st) = inr resp →
  ∃ channelId f qs,
    rejections f = []
    ∧ created_id (data resp) = Some (newObjectId (oidCounter (db st)))
    ∧ after (createNote payload userId st)
      = mkStore
          (set_oidCounter (N.succ (oidCounter (db st)))
             (set_notes
                (notes (db st)
                 ++ [noteModel.document (db st)
                       (newNoteFields (content payload) (tags payload)
                          channelId userId)])
                (db st)))
          f qs.
Proof.
  intros Hst. unfold createNote, outcome, after, try_catch.
  rewrite createNote_try_healthy by done. simpl.
  destruct (falsy (channelId payload)).
  - destruct (Mongo.findOne _ _) as [channel|]; [|done].
    rewrite create_then_respond by stay_healthy. simpl. intros [= <-].
    eexists _, _, _. split; [|done]. simpl. stay_healthy.
  - rewrite create_then_respond by done. simpl. intros [= <-].
    eexists _, _, _. split; [|done]. simpl. stay_healthy.
Qed.

Lemma field_matches_same s : Mongo.field_matches (SStr s) (Some (SStr s)) = true.
Proof. simpl. by apply bool_decide_eq_true. Qed.

(** X8.  What [createNote] stored, [getNote] gives back: on a healthy
    store, when [createNote] returns an id that no earlier note of the
    caller bears, [getNote] with that id and the same caller returns
    status OK with the content and the tags of the payload. *)
Theorem createNote_then_getNote st payload userId resp newId :
  healthy st →
  outcome (createNote payload userId st) = inr resp →
  created_id (data resp) = Some newId →
  Mongo.find (ownedNoteFilter newId userId) (notes (db st)) = [] →
  ∃ got,
    outcome (getNote newId userId (after (createNote payload userId st)))
    = inr got
    ∧ statusCode got = OK
    ∧ data got !! "content" = Some (VS (SStr (content payload)))
    ∧ data got !! "tags" = Some (VS (SList (tags payload))).
Proof.
  intros Hst Hout Hid Hfresh.
  destruct (createNote_returns _ _ _ _ Hst Hout)
    as (channelId & f & qs & Hf & Hnew & Hafter).
  rewrite Hafter.
  set (n := noteModel.document _ _).
  pose proof (document_fields (db st) (content payload) (tags payload)
                channelId userId) as (Hn_id & Hcontent & Htags & Huser).
  fold n in Hn_id, Hcontent, Htags, Huser.
  assert (H_id : n !! "_id" = Some (SStr newId)).
  { rewrite Hnew in Hid. injection Hid as <-.
    unfold n, noteModel.document. by rewrite lookup_insert_eq. }
  assert (Hfind : Mongo.findOne (ownedNoteFilter newId userId)
                    (notes (db st) ++ [n]) = Some n).
  { apply findOne_skip; [done|]. unfold Mongo.matches, ownedNoteFilter.
    cbn -[Mongo.field_matches].
    by rewrite H_id, Huser, !field_matches_same. }
  unfold getNote, outcome, try_catch.
  rewrite getNote_try_healthy by (unfold healthy; done). simpl.
  rewrite Hfind. eexists. split; [done|]. split; [done|].
  rewrite !populate_lookup_ne by done. unfold field.
  rewrite !select_lookup;
    [|change (String.words "-_id id content tags channel status")
        with ["-_id"; "id"; "content"; "tags"; "channel"; "status"];
      set_solver..].
  rewrite Hcontent, Htags. by simplify_map_eq.
Qed.

Lemma createNote_then_getNote_witness :
  let payload := mkCreateNoteDto None "buy milk" ["home"] in
  let st := Sample.store true in
  ∃ got,
    outcome (getNote (newObjectId 7) Sample.u1
               (after (createNote payload Sample.u1 st)))
    = inr got
    ∧ data got !! "content" = Some (VS (SStr "buy milk"))
    ∧ data got !! "tags" = Some (VS (SList ["home"])).
Proof.
  destruct (createNote_then_getNote (Sample.store true)
              (mkCreateNoteDto None "buy milk" ["home"]) Sample.u1
              (mkResponse (mkCreated (Some (newObjectId 7))) CREATED)
              (newObjectId 7))
    as (got & Hgot & _ & Hcontent & Htags);
    [reflexivity | by vm_compute | reflexivity | by vm_compute |].
  by exists got.
Defined.

(** ** Reads and the notes of other users *)

(** A filter that asks for the caller's notes finds the same documents in
    the collection and among the caller's notes alone. *)
Lemma find_owned flt userId c :
  (∀ d, Mongo.matches flt d = true → owned_by userId d = true) →
  Mongo.find flt (List.filter (owned_by userId) c) = Mongo.find flt c.
Proof.
  intros Hflt. unfold Mongo.find. induction c as [|d c IH]; [done|]. simpl.
  destruct (owned_by userId d) eqn:Hd; simpl.
  - by rewrite IH.
  - destruct (Mongo.matches flt d) eqn:Hm; [|done].
    apply Hflt in Hm. congruence.
Qed.

(** X9.  What [getNote] and the page of [getNotes] give a caller depends
    on the caller's own notes only: with any other Note collection that
    holds the same notes of the caller in the same order, whatever else it
    holds, the outcome of [getNote] and the items of [getNotes] are the
    same. *)
Theorem reads_depend_on_own_notes st userId c id query :
  healthy st →
  List.filter (owned_by userId) c
  = List.filter (owned_by userId) (notes (db st)) →
  outcome (getNote id userId (with_notes c st))
  = outcome (getNote id userId st)
  ∧ items (getNotes query userId (with_notes c st))
    = items (getNotes query userId st).
Proof.
  intros Hst Hown.
  assert (Hst' : healthy (with_notes c st)) by done.
  assert (Hone : Mongo.find (ownedNoteFilter id userId) c
                 = Mongo.find (ownedNoteFilter id userId) (notes (db st))).
  { rewrite <-(find_owned _ userId c), <-(find_owned _ userId (notes (db st)))
      by apply matches_owned. by rewrite Hown. }
  assert (Hall : Mongo.find [("user", SStr userId)] c
                 = Mongo.find [("user", SStr userId)] (notes (db st))).
  { rewrite <-(find_owned _ userId c), <-(find_owned _ userId (notes (db st)))
      by (intros d; by rewrite matches_user). by rewrite Hown. }
  split.
  - unfold getNote, outcome, try_catch.
    rewrite !getNote_try_healthy by done. simpl.
    unfold Mongo.findOne. rewrite Hone.
    by destruct (head _).
  - unfold getNotes, items, try_catch.
    rewrite !getNotes_try_healthy by done. simpl. by rewrite Hall.
Qed.

(** With and without the note of [Sample.u2] in the collection. *)
Lemma reads_depend_on_own_notes_witness :
  outcome (getNote Sample.n1 Sample.u1
             (with_notes [Sample.note1] (Sample.store true)))
  = outcome (getNote Sample.n1 Sample.u1 (Sample.store true))
  ∧ items (getNotes (mkGetNotesQuery 0 10) Sample.u1
             (with_notes [Sample.note1] (Sample.store true)))
    = items (getNotes (mkGetNotesQuery 0 10) Sample.u1 (Sample.store true)).
Proof.
  exact (reads_depend_on_own_notes (Sample.store true) Sample.u1
           [Sample.note1] Sample.n1 (mkGetNotesQuery 0 10)
           eq_refl eq_refl).
Defined.

(** ** Pages *)

Lemma items_healthy st query userId :
  healthy st →
  items (getNotes query userId st)
  = Mongo.select "-_id id content tags status"
      <$> Mongo.limit (limit query) (Mongo.skip (skip query)
            (Mongo.find [("user", SStr userId)] (notes (db st)))).
Proof.
  intros Hst. unfold getNotes, items, try_catch.
  by rewrite getNotes_try_healthy.
Qed.

Lemma getNotes_after_healthy st query userId :
  healthy st →
  healthy (after (getNotes query userId st))
  ∧ db (after (getNotes query userId st)) = db st.
Proof.
  intros Hst. unfold getNotes, after, try_catch.
  rewrite getNotes_try_healthy by done. simpl. split; [stay_healthy|done].
Qed.

(** X10.  Pages join up: on a healthy store, the page of [L1] items from
    offset [S] followed by the page of [L2] items from offset [S + L1],
    fetched next, is the page of [L1 + L2] items from offset [S]; no note
    is left out or listed twice between them. *)
Theorem getNotes_pages_join st userId (S L1 L2 : nat) :
  healthy st →
  0 < L1 →
  0 < L2 →
  let first := getNotes (mkGetNotesQuery S L1) userId st in
  items first
  ++ items (getNotes (mkGetNotesQuery (S + L1) L2) userId (after first))
  = items (getNotes (mkGetNotesQuery S (L1 + L2)) userId st).
Proof.
  intros Hst H1 H2. simpl.
  destruct (getNotes_after_healthy st (mkGetNotesQuery S L1) userId Hst)
    as [Hafter Hdb].
  rewrite !items_healthy by done. rewrite Hdb. simpl.
  unfold Mongo.limit, Mongo.skip.
  repeat case_decide; try lia.
  rewrite <-fmap_app. f_equal.
  by rewrite <-drop_drop, take_take_drop.
Qed.

Lemma getNotes_pages_join_witness :
  let st := Fixtures.store [Sample.note1; Sample.note2; Fixtures.note3]
              [Sample.chan1] in
  let first := getNotes (mkGetNotesQuery 0 1) Sample.u1 st in
  length (items first) = 1
  ∧ items first
    ++ items (getNotes (mkGetNotesQuery 1 1) Sample.u1 (after first))
    = items (getNotes (mkGetNotesQuery 0 2) Sample.u1 st).
Proof.
  split; [reflexivity|].
  apply (getNotes_pages_join
           (Fixtures.store [Sample.note1; Sample.note2; Fixtures.note3]
              [Sample.chan1]) Sample.u1 0 1 1); [reflexivity | lia | lia].
Defined.

(** X11.  On a healthy store and with a positive limit [L], the page of
    [getNotes] at offset [S] holds [min(L, N - S)] items, where [N] is the
    number of the caller's notes and the subtraction stops at 0; each item
    is the projection of one of the caller's notes, in insertion order. *)
Theorem getNotes_page st query userId :
  healthy st →
  0 < limit query →
  let own := List.filter (owned_by userId) (notes (db st)) in
  items (getNotes query userId st)
  = Mongo.select "-_id id content tags status"
      <$> take (limit query) (drop (skip query) own)
  ∧ length (items (getNotes query userId st))
    = limit query `min` (length own - skip query).
Proof.
  intros Hst Hlimit. simpl.
  rewrite items_healthy by done.
  assert (Hfind : Mongo.find [("user", SStr userId)] (notes (db st))
                  = List.filter (owned_by userId) (notes (db st))).
  { unfold Mongo.find. apply List.filter_ext. intros d. apply matches_user. }
  rewrite Hfind. unfold Mongo.limit, Mongo.skip.
  case_decide; [lia|]. split; [done|].
  by rewrite length_fmap, length_take, length_drop.
Qed.

Lemma getNotes_page_witness :
  let st := Fixtures.store [Sample.note1; Sample.note2; Fixtures.note3]
              [Sample.chan1] in
  length (items (getNotes (mkGetNotesQuery 1 5) Sample.u1 st)) = 1.
Proof.
  simpl.
  rewrite (proj2 (getNotes_page
                    (Fixtures.store
                       [Sample.note1; Sample.note2; Fixtures.note3]
                       [Sample.chan1])
                    (mkGetNotesQuery 1 5) Sample.u1 eq_refl
                    ltac:(simpl; lia))).
  reflexivity.
Defined.

(** ** Writes and the notes of other users *)

(** X12.  [updateNote] writes to the caller's notes only: whatever the
    store, the payload and the driver, every note that is not the
    caller's stays at its place unchanged, no note is added or removed,
    and the Channel collection is untouched. *)
Theorem updateNote_writes_own_notes_only st id userId payload i d :
  notes (db st) !! i = Some d →
  owned_by userId d = false →
  let st' := after (updateNote id userId payload st) in
  notes (db st') !! i = Some d
  ∧ length (notes (db st')) = length (notes (db st))
  ∧ channels (db st') = channels (db st).
Proof.
  intros Hi Hd.
  unfold updateNote, after, try_catch, updateNote_try, mbind, M_bind,
    noteModel.updateOne, await.
  destruct (next_fault st); simpl; [done|].
  rewrite castFilter_ownedNote. split; [|by rewrite updateOne_length].
  apply updateOne_frame; [done|].
  destruct (Mongo.matches _ d) eqn:Hm; [|done].
  apply matches_owned in Hm. congruence.
Qed.

(** [Sample.u2] tries to rewrite the note of [Sample.u1] and to take it
    over. *)
Lemma updateNote_writes_own_notes_only_witness :
  let st' := after (updateNote Sample.n1 Sample.u2
                      {[ "content" := SStr "mine now";
                         "user" := SStr Sample.u2 ]} (Sample.store true)) in
  notes (db st') !! 0 = Some Sample.note1
  ∧ length (notes (db st')) = 2.
Proof.
  destruct (updateNote_writes_own_notes_only (Sample.store true)
              Sample.n1 Sample.u2
              {[ "content" := SStr "mine now"; "user" := SStr Sample.u2 ]}
              0 Sample.note1 eq_refl eq_refl) as (Hnote & Hlen & _).
  split; [exact Hnote | exact Hlen].
Defined.

Lemma deleteOne_length flt (c : list doc) :
  (length c ≤ S (length (Mongo.deleteOne flt c).1))%nat.
Proof.
  induction c as [|d c IH]; simpl; [lia|].
  destruct (Mongo.matches flt d); simpl; lia.
Qed.

(** X13.  [deleteNote] removes at most one note and never a note that is
    not the caller's: whatever the store and the driver, the notes of
    other users are all there afterwards, in their order. *)
Theorem deleteNote_removes_own_note_only st id userId :
  let st' := after (deleteNote id userId st) in
  List.filter (λ d, negb (owned_by userId d)) (notes (db st'))
  = List.filter (λ d, negb (owned_by userId d)) (notes (db st))
  ∧ (length (notes (db st)) ≤ S (length (notes (db st'))))%nat.
Proof.
  assert (Hframe : ∀ c,
    List.filter (λ d, negb (owned_by userId d))
      (Mongo.deleteOne (ownedNoteFilter id userId) c).1
    = List.filter (λ d, negb (owned_by userId d)) c).
  { intros c. apply deleteOne_frame. intros d Hd.
    destruct (Mongo.matches _ d) eqn:Hm; [|done].
    apply matches_owned in Hm. by rewrite Hm in Hd. }
  pose proof (deleteOne_length (ownedNoteFilter id userId) (notes (db st)))
    as Hlen.
  unfold deleteNote, after, try_catch, deleteNote_try, mbind, M_bind,
    noteModel.findOne, Promise_all, noteModel.deleteOne,
    channelModel.deleteOne, await, next_fault.
  destruct st as [d [|[m1|] [|[m2|] [|[m3|] fs]]] qs]; simpl in *;
    rewrite ?castFilter_ownedNote;
    try (split; [done|lia]);
    destruct (Mongo.findOne _ _); simpl;
    rewrite ?castFilter_ownedNote, ?Hframe; (split; [done|lia]).
Qed.

(** [Sample.u2] deletes their note; the note of [Sample.u1] stays. *)
Lemma deleteNote_removes_own_note_only_example :
  notes (db (after (deleteNote Sample.n2 Sample.u2 (Sample.store true))))
  = [Sample.note1].
Proof. reflexivity. Qed.

(** ** deleteNote is not atomic *)

(** X14.  When the driver rejects the deletion of the channel, [deleteNote]
    throws the driver's message under status 500 although the note has
    been deleted: the note is gone from the collection, the channel is
    still there, and nothing is rolled back. *)
Theorem deleteNote_channel_call_rejected st id userId note msg rest :
  faults st = None :: None :: Some msg :: rest →
  Mongo.find (ownedNoteFilter id userId) (notes (db st)) = [note] →
  let st' := after (deleteNote id userId st) in
  outcome (deleteNote id userId st)
  = inl (HttpException msg INTERNAL_SERVER_ERROR)
  ∧ (∃ n1 n2, notes (db st) = n1 ++ note :: n2
              ∧ notes (db st') = n1 ++ n2)
  ∧ Mongo.find (ownedNoteFilter id userId) (notes (db st')) = []
  ∧ channels (db st') = channels (db st).
Proof.
  intros Hfaults Hone.
  destruct (deleteOne_only _ _ _ Hone) as (n1 & n2 & Hnotes & Hdel & Hnone).
  pose proof (find_singleton_findOne _ _ _ Hone) as Hfind.
  destruct st as [d fs qs]. simpl in *. subst fs.
  unfold deleteNote, outcome, after, try_catch, deleteNote_try, mbind, M_bind,
    noteModel.findOne, Promise_all, noteModel.deleteOne,
    channelModel.deleteOne, await, next_fault. simpl.
  rewrite !castFilter_ownedNote, Hfind. simpl.
  rewrite !castFilter_ownedNote, Hdel. simpl.
  split; [done|]. split; [by exists n1, n2|]. by split.
Qed.

Lemma deleteNote_channel_call_rejected_witness :
  let st := with_faults [None; None; Some "connection lost"]
              (Sample.store true) in
  outcome (deleteNote Sample.n1 Sample.u1 st)
  = inl (HttpException "connection lost" INTERNAL_SERVER_ERROR)
  ∧ Mongo.find (ownedNoteFilter Sample.n1 Sample.u1)
      (notes (db (after (deleteNote Sample.n1 Sample.u1 st)))) = []
  ∧ channels (db (after (deleteNote Sample.n1 Sample.u1 st)))
    = [Sample.chan1].
Proof.
  destruct (deleteNote_channel_call_rejected
              (with_faults [None; None; Some "connection lost"]
                 (Sample.store true))
              Sample.n1 Sample.u1 Sample.note1 "connection lost" [])
    as (Hout & _ & Hgone & Hchannels); [reflexivity | reflexivity |].
  split; [exact Hout|]. split; [exact Hgone | exact Hchannels].
Defined.

(** X15.  When the driver rejects the deletion of the note and not the one
    of the channel, [deleteNote] throws the driver's message under status
    500, the note is still in the collection, and the channel it refers
    to has been deleted. *)
Theorem deleteNote_note_call_rejected st id userId note c channel msg rest :
  faults st = None :: Some msg :: None :: rest →
  Mongo.findOne (ownedNoteFilter id userId) (notes (db st)) = Some note →
  note !! "channel" = Some (SStr c) →
  Mongo.findOne [("_id", SStr c)] (channels (db st)) = Some channel →
  let st' := after (deleteNote id userId st) in
  outcome (deleteNote id userId st)
  = inl (HttpException msg INTERNAL_SERVER_ERROR)
  ∧ notes (db st') = notes (db st)
  ∧ ∃ c1 c2, channels (db st) = c1 ++ channel :: c2
             ∧ channels (db st') = c1 ++ c2.
Proof.
  intros Hfaults Hfind Hchannel Hch.
  destruct (deleteOne_Some _ _ _ Hch) as (c1 & c2 & Hchs & _ & Hdel).
  destruct st as [d fs qs]. simpl in *. subst fs.
  unfold deleteNote, outcome, after, try_catch, deleteNote_try, mbind, M_bind,
    noteModel.findOne, Promise_all, noteModel.deleteOne,
    channelModel.deleteOne, await, next_fault. simpl.
  rewrite !castFilter_ownedNote, Hfind. simpl.
  rewrite Hchannel, castFilter_channel_id. simpl. rewrite Hdel. simpl.
  split; [done|]. split; [done|]. by exists c1, c2.
Qed.

Lemma deleteNote_note_call_rejected_witness :
  let st := with_faults [None; Some "connection lost"; None]
              (Sample.store true) in
  outcome (deleteNote Sample.n1 Sample.u1 st)
  = inl (HttpException "connection lost" INTERNAL_SERVER_ERROR)
  ∧ notes (db (after (deleteNote Sample.n1 Sample.u1 st)))
    = [Sample.note1; Sample.note2]
  ∧ channels (db (after (deleteNote Sample.n1 Sample.u1 st))) = [].
Proof.
  destruct (deleteNote_note_call_rejected
              (with_faults [None; Some "connection lost"; None]
                 (Sample.store true))
              Sample.n1 Sample.u1 Sample.note1 Sample.c1 Sample.chan1
              "connection lost" [])
    as (Hout & Hnotes & c1 & c2 & Hc & Hafter); [reflexivity..|].
  split; [exact Hout|]. split; [exact Hnotes|]. reflexivity.
Defined.

(** ** deleteNote and the caller's channels *)

(** X17.  [deleteNote] by someone who does not own the note deletes
    nothing: on a healthy store, when every note with that id belongs to
    others, the method throws "Note Not Found" (under status 500) and the
    database, Channel collection included, is as it was. *)
Theorem deleteNote_not_owner st id userId :
  healthy st →
  (∀ d, d ∈ notes (db st) →
        Mongo.matches [("_id", SStr id)] d = true →
        owned_by userId d = false) →
  outcome (deleteNote id userId st)
  = inl (HttpException "Note Not Found" INTERNAL_SERVER_ERROR)
  ∧ db (after (deleteNote id userId st)) = db st.
Proof.
  intros Hst Hothers.
  assert (Hnone : Mongo.find (ownedNoteFilter id userId) (notes (db st)) = []).
  { apply find_nil_findOne, findOne_None. intros d Hd.
    specialize (Hothers d Hd). unfold Mongo.matches, owned_by in *.
    cbn -[Mongo.field_matches] in *.
    destruct (Mongo.field_matches (SStr id) _); [|done].
    by rewrite Hothers. }
  destruct (deleteNote_not_found st id userId Hst Hnone) as [_ Hrun].
  unfold outcome, after. by rewrite Hrun.
Qed.

Lemma deleteNote_not_owner_witness :
  outcome (deleteNote Sample.n1 Sample.u2 (Sample.store true))
  = inl (HttpException "Note Not Found" INTERNAL_SERVER_ERROR)
  ∧ db (after (deleteNote Sample.n1 Sample.u2 (Sample.store true)))
    = db (Sample.store true).
Proof.
  apply (deleteNote_not_owner (Sample.store true) Sample.n1 Sample.u2);
    [reflexivity|].
  intros d Hd.
  apply elem_of_cons in Hd as [->|Hd]; [reflexivity|].
  apply elem_of_cons in Hd as [->|Hd]; [by vm_compute|].
  by apply elem_of_nil in Hd.
Defined.

(** Where a document is the only match in a collection, nothing matches
    once it is taken out. *)
Lemma find_without_only flt c1 d c2 :
  Mongo.find flt (c1 ++ d :: c2) = [d] → Mongo.find flt (c1 ++ c2) = [].
Proof.
  intros Hone.
  assert (Hm : Mongo.matches flt d = true).
  { apply (findOne_Some flt (c1 ++ d :: c2)).
    by apply find_singleton_findOne. }
  rewrite find_app in Hone. rewrite find_app.
  unfold Mongo.find in *. simpl in Hone. rewrite Hm in Hone.
  destruct (List.filter _ c1) as [|x l]; simpl in *.
  - by injection Hone.
  - injection Hone as _ Hl. by destruct l.
Qed.

(** Where [deleteNote] returns on a healthy store: the store it leaves. *)
Lemma deleteNote_returns st id userId note c :
  healthy st →
  Mongo.find (ownedNoteFilter id userId) (notes (db st)) = [note] →
  note !! "channel" = Some (SStr c) →
  ∃ f qs,
    rejections f = []
    ∧ deleteNote id userId st
      = (inr (mkResponse (mkDeleted id 1) NO_CONTENT),
         mkStore
           (set_channels
              (Mongo.deleteOne [("_id", SStr c)] (channels (db st))).1
              (set_notes
                 (Mongo.deleteOne (ownedNoteFilter id userId)
                    (notes (db st))).1
                 (db st)))
           f qs).
Proof.
  intros Hst Hone Hchannel.
  destruct (deleteOne_only _ _ _ Hone) as (n1 & n2 & Hnotes & Hdel & Hnone).
  eexists _, _. split; last first.
  - unfold deleteNote. apply try_rethrow_inr.
    rewrite deleteNote_try_healthy by done. simpl.
    by rewrite (find_singleton_findOne _ _ _ Hone), Hchannel, Hdel.
  - stay_healthy.
Qed.

(** X16.  Deleting a note takes the caller's default channel with it: on
    a healthy store, after [deleteNote] of a note that is on the caller's
    only active default channel, [createNote] without a [channelId] finds
    no channel, throws "You need to connect to at least one channel"
    (under status 500) and stores nothing. *)
Theorem deleteNote_then_createNote st id userId note c channel payload :
  healthy st →
  Mongo.find (ownedNoteFilter id userId) (notes (db st)) = [note] →
  note !! "channel" = Some (SStr c) →
  Mongo.find [("_id", SStr c)] (channels (db st)) = [channel] →
  Mongo.find (defaultChannelFilter userId) (channels (db st)) = [channel] →
  falsy (channelId payload) = true →
  let st' := after (deleteNote id userId st) in
  outcome (deleteNote id userId st)
  = inr (mkResponse (mkDeleted id 1) NO_CONTENT)
  ∧ outcome (createNote payload userId st')
    = inl (HttpException "You need to connect to at least one channel"
             INTERNAL_SERVER_ERROR)
  ∧ db (after (createNote payload userId st')) = db st'.
Proof.
  intros Hst Hone Hchannel Hid Hdefault Hfalsy.
  destruct (deleteNote_returns _ _ _ _ _ Hst Hone Hchannel)
    as (f & qs & Hf & Hrun).
  destruct (deleteOne_only _ _ _ Hid) as (c1 & c2 & Hchs & Hdel & _).
  rewrite Hchs in Hdefault. apply find_without_only in Hdefault.
  unfold outcome, after. rewrite Hrun. simpl. split; [done|].
  match goal with
  | |- context [createNote payload userId ?s] =>
      destruct (createNote_no_default_channel s payload userId)
        as (_ & -> & _); [done | done | by rewrite Hdel | done]
  end.
Qed.

Lemma deleteNote_then_createNote_witness :
  let st' := after (deleteNote Sample.n1 Sample.u1 (Sample.store true)) in
  outcome (createNote (mkCreateNoteDto None "buy milk" ["home"])
             Sample.u1 (Sample.store true))
  = inr (mkResponse (mkCreated (Some (newObjectId 7))) CREATED)
  ∧ outcome (createNote (mkCreateNoteDto None "buy milk" ["home"])
               Sample.u1 st')
    = inl (HttpException "You need to connect to at least one channel"
             INTERNAL_SERVER_ERROR).
Proof.
  destruct (deleteNote_then_createNote (Sample.store true)
              Sample.n1 Sample.u1 Sample.note1 Sample.c1 Sample.chan1
              (mkCreateNoteDto None "buy milk" ["home"]))
    as (_ & Hcreate & _); [reflexivity..|].
  split; [by vm_compute | exact Hcreate].
Defined.

(** ** The calls that carry the owner *)

(** X18.  On a healthy store every call that [getNote], [updateNote] and
    [deleteNote] make on the Note collection carries the condition
    [user = userId] in its filter. *)
Theorem note_calls_owner_scoped st id userId payload q :
  healthy st →
  q ∈ issued_since st (after (getNote id userId st))
      ++ issued_since st (after (updateNote id userId payload st))
      ++ issued_since st (after (deleteNote id userId st)) →
  q_collection q = NoteCollection →
  owner_scoped userId q.
Proof.
  intros Hst Hq Hcoll.
  apply elem_of_app in Hq as [Hq|Hq];
    [by eapply getNote_owner_scoped|].
  apply elem_of_app in Hq as [Hq|Hq];
    [by eapply updateNote_owner_scoped | by eapply deleteNote_owner_scoped].
Qed.

Lemma note_calls_owner_scoped_witness :
  owner_scoped Sample.u1
    (mkQuery NoteCollection QDeleteOne
       (ownedNoteFilter Sample.n1 Sample.u1)).
Proof.
  apply (note_calls_owner_scoped (Sample.store true) Sample.n1 Sample.u1
           {[ "content" := SStr "x" ]});
    [reflexivity | | reflexivity].
  do 3 apply list_elem_of_further. apply list_elem_of_here.
Defined.

(** ** After a deletion *)

(** Taking one document out of a collection leaves the only match of
    another filter in place, when that match is another document. *)
Lemma find_other_survives flt c1 d c2 d' :
  Mongo.find flt (c1 ++ d :: c2) = [d'] → d ≠ d' →
  Mongo.find flt (c1 ++ c2) = [d'].
Proof.
  intros Hone Hne. rewrite find_app in Hone. rewrite find_app.
  unfold Mongo.find in *. simpl in Hone.
  destruct (Mongo.matches flt d); [|done].
  destruct (List.filter _ c1) as [|x l]; simpl in *.
  - injection Hone as Hd _. congruence.
  - injection Hone as _ Hl. by destruct l.
Qed.

(** X19.  Deleting a note orphans the notes that share its channel: on a
    healthy store, after [deleteNote] of one of two notes of the caller on
    the same channel, [getNote] for the other note still returns with
    status OK, and its channel is [null]. *)
Theorem deleteNote_orphans_shared_channel st id other userId note note' c
    channel :
  healthy st →
  Mongo.find (ownedNoteFilter id userId) (notes (db st)) = [note] →
  Mongo.find (ownedNoteFilter other userId) (notes (db st)) = [note'] →
  note ≠ note' →
  note !! "channel" = Some (SStr c) →
  note' !! "channel" = Some (SStr c) →
  Mongo.find [("_id", SStr c)] (channels (db st)) = [channel] →
  let st' := after (deleteNote id userId st) in
  ∃ got,
    outcome (getNote other userId st') = inr got
    ∧ statusCode got = OK
    ∧ data got !! "channel" = Some (VS SNull).
Proof.
  intros Hst Hone Hother Hne Hchannel Hchannel' Hid.
  destruct (deleteNote_returns _ _ _ _ _ Hst Hone Hchannel)
    as (f & qs & Hf & Hrun).
  destruct (deleteOne_only _ _ _ Hone) as (n1 & n2 & Hnotes & Hdel & _).
  destruct (deleteOne_only _ _ _ Hid) as (c1 & c2 & Hchs & Hdelc & Hgone).
  rewrite Hnotes in Hother.
  pose proof (find_singleton_findOne _ _ _
                (find_other_survives _ _ _ _ _ Hother Hne)) as Hfind.
  apply find_nil_findOne in Hgone.
  unfold after. rewrite Hrun. simpl. rewrite Hdel, Hdelc. simpl.
  unfold getNote, outcome, try_catch.
  rewrite getNote_try_healthy by (unfold healthy; done). simpl.
  rewrite Hfind. eexists. split; [done|]. split; [done|].
  rewrite populate_lookup_channel. unfold resolved_channel.
  rewrite select_lookup;
    [|change (String.words "-_id id content tags channel status")
        with ["-_id"; "id"; "content"; "tags"; "channel"; "status"];
      set_solver].
  rewrite Hchannel', Hgone. by simplify_map_eq.
Qed.

Lemma deleteNote_orphans_shared_channel_witness :
  let st := Fixtures.store [Sample.note1; Fixtures.note3] [Sample.chan1] in
  ∃ got,
    outcome (getNote Fixtures.n3 Sample.u1
               (after (deleteNote Sample.n1 Sample.u1 st)))
    = inr got
    ∧ data got !! "channel" = Some (VS SNull).
Proof.
  destruct (deleteNote_orphans_shared_channel
              (Fixtures.store [Sample.note1; Fixtures.note3] [Sample.chan1])
              Sample.n1 Fixtures.n3 Sample.u1
              Sample.note1 Fixtures.note3 Sample.c1 Sample.chan1)
    as (got & Hgot & _ & Hnull);
    [reflexivity | reflexivity | reflexivity | | reflexivity..|].
  - intros Heq. apply (f_equal (λ d : doc, d !! "content")) in Heq.
    vm_compute in Heq. discriminate.
  - by exists got.
Defined.

(** X20.  A note can be deleted once: on a healthy store, after
    [deleteNote] of the one note the filter matches, a second [deleteNote]
    with the same id throws "Note Not Found" (under status 500) and
    deletes nothing more, neither a note nor a channel. *)
Theorem deleteNote_twice st id userId note c :
  healthy st →
  Mongo.find (ownedNoteFilter id userId) (notes (db st)) = [note] →
  note !! "channel" = Some (SStr c) →
  let st' := after (deleteNote id userId st) in
  outcome (deleteNote id userId st)
  = inr (mkResponse (mkDeleted id 1) NO_CONTENT)
  ∧ outcome (deleteNote id userId st')
    = inl (HttpException "Note Not Found" INTERNAL_SERVER_ERROR)
  ∧ db (after (deleteNote id userId st')) = db st'.
Proof.
  intros Hst Hone Hchannel.
  destruct (deleteNote_returns _ _ _ _ _ Hst Hone Hchannel)
    as (f & qs & Hf & Hrun).
  destruct (deleteOne_only _ _ _ Hone) as (n1 & n2 & Hnotes & Hdel & Hnone).
  unfold outcome, after. rewrite Hrun. simpl. split; [done|].
  match goal with
  | |- context [deleteNote id userId ?s] =>
      destruct (deleteNote_not_found s id userId) as [_ ->];
        [done | by (simpl; rewrite Hdel) | done]
  end.
Qed.

Lemma deleteNote_twice_witness :
  let st' := after (deleteNote Sample.n2 Sample.u2 (Sample.store true)) in
  outcome (deleteNote Sample.n2 Sample.u2 st')
  = inl (HttpException "Note Not Found" INTERNAL_SERVER_ERROR)
  ∧ db (after (deleteNote Sample.n2 Sample.u2 st')) = db st'.
Proof.
  destruct (deleteNote_twice (Sample.store true) Sample.n2 Sample.u2
              Sample.note2 Sample.c1)
    as (_ & Hsecond & Hdb); [reflexivity..|].
  split; [exact Hsecond | exact Hdb].
Defined.

(** X21.  [getNote] and [deleteNote] agree on what exists: on a healthy
    store, [deleteNote] throws for an id and a caller exactly when
    [getNote] throws for them. *)
Theorem getNote_deleteNote_agree st id userId :
  healthy st →
  is_Some (failure (getNote id userId st))
  ↔ is_Some (failure (deleteNote id userId st)).
Proof.
  intros Hst. unfold failure, getNote, deleteNote, try_catch.
  rewrite getNote_try_healthy, deleteNote_try_healthy by done. simpl.
  destruct (Mongo.findOne _ _); simpl; split; intros [x Hx]; by eexists.
Qed.

Lemma getNote_deleteNote_agree_witness :
  is_Some (failure (getNote Sample.n1 Sample.u2 (Sample.store true)))
  ↔ is_Some (failure (deleteNote Sample.n1 Sample.u2 (Sample.store true))).
Proof.
  exact (getNote_deleteNote_agree (Sample.store true) Sample.n1 Sample.u2
           eq_refl).
Defined.
